(** * threema.gateway: the Connection class of the Threema Gateway client

    A shallow embedding of [threema/gateway/__init__.py] and the properties
    of its request dispatcher, key provider and session set-up.

    Conventions of the embedding.
    - A Python [str] is a [string]; a character stands for a code point
      below 256.  A [bytes] value is a [list Byte.byte].
    - A Python [dict] with string keys is a [gmap string _]; a Python [set]
      is a [gset _].
    - A coroutine is a computation in the monad [M]: it reads the outside
      world (file system, gateway), appends what it does to a chronological
      trace of events and either returns a value or raises an exception.
    - An object mutated through [self] is passed in and handed back. *)

From Stdlib Require Import ZArith Ascii String.
From Stdlib.Strings Require Import Byte.
From stdpp Require Import base option list strings gmap.

Local Open Scope string_scope.
Local Open Scope Z_scope.

(** ** Python values *)

(** The objects the class handles without looking inside: [None], text,
    binary data, integers and any other object (a libnacl key, say), known
    by its identity only. *)
Inductive pyobj : Type :=
  | PyNone
  | PyStr (s : string)
  | PyBytes (b : list byte)
  | PyInt (z : Z)
  | PyObject (ident : positive).

(** [isinstance(o, str)] *)
Definition isinstance_str (o : pyobj) : bool :=
  match o with PyStr _ => true | _ => false end.

(** [o is None] *)
Definition is_None (o : pyobj) : bool :=
  match o with PyNone => true | _ => false end.

(** ** Exceptions *)

(** The six per-endpoint families of [GatewayServerError]. *)
Inductive ServerErrorFamily : Type :=
  | KeyServerError
  | IDServerError
  | ReceptionCapabilitiesServerError
  | CreditsServerError
  | MessageServerError
  | BlobServerError.

Inductive exn : Type :=
  (* threema.gateway.exception *)
  | GatewayKeyError (msg : string)
  | IDError (msg : string)
  | ReceptionCapabilitiesError (msg : string)
  | GatewayServerError (family : ServerErrorFamily) (status : Z)
  (* builtins *)
  | KeyError (msg : string)
  | ValueError (msg : string)
  | OSError (path : string)
  (* aiohttp: the transport gave no response *)
  | ClientError.

Definition is_ValueError (e : exn) : bool :=
  match e with ValueError _ => true | _ => false end.

Inductive Outcome (A : Type) : Type :=
  | Ok (a : A)
  | Raise (e : exn).
Arguments Ok {A} a.
Arguments Raise {A} e.

(** ** Builtins on text and dictionaries *)

Module Py.

(** [str.isspace] on one character, for code points below 256. *)
Definition isspace (c : ascii) : bool :=
  let n := N_of_ascii c in
  ((9 <=? n) && (n <=? 13) || (28 <=? n) && (n <=? 32)
   || (n =? 133) || (n =? 160))%N.

Fixpoint lstrip (s : string) : string :=
  match s with
  | String c r => if isspace c then lstrip r else s
  | EmptyString => EmptyString
  end.

Fixpoint rstrip (s : string) : string :=
  match s with
  | String c r =>
      match rstrip r with
      | EmptyString => if isspace c then EmptyString else String c EmptyString
      | r' => String c r'
      end
  | EmptyString => EmptyString
  end.

(** [s.strip()] *)
Definition strip (s : string) : string := rstrip (lstrip s).

(** [s.split(sep)] for a one-character separator: one more piece than
    there are separators, empty pieces kept. *)
Fixpoint split (sep : ascii) (s : string) : list string :=
  match s with
  | EmptyString => [EmptyString]
  | String c r =>
      if Ascii.eqb c sep then EmptyString :: split sep r
      else match split sep r with
           | piece :: pieces => String c piece :: pieces
           | [] => [String c EmptyString]
           end
  end.

(** [file.readline()] on a file opened in text mode at its start: the
    text up to the first line end, which universal newlines turn into a
    line feed. *)
Fixpoint readline (s : string) : string :=
  match s with
  | EmptyString => EmptyString
  | String c r =>
      if (N_of_ascii c =? 10)%N || (N_of_ascii c =? 13)%N
      then String (ascii_of_N 10) EmptyString
      else String c (readline r)
  end.

(** [template.format(arg)] for a template with at most one [{}]. *)
Fixpoint format (template arg : string) : string :=
  match template with
  | String "{" (String "}" r) => arg ++ r
  | String c r => String c (format r arg)
  | EmptyString => EmptyString
  end.

(** [d.setdefault(k, v)], as the dictionary it leaves behind. *)
Definition setdefault {V : Type} (d : gmap string V) (k : string) (v : V)
  : gmap string V :=
  match d !! k with
  | Some _ => d
  | None => <[k := v]> d
  end.

(** [d[k]] *)
Definition getitem {V : Type} (d : gmap string V) (k : string) : Outcome V :=
  match d !! k with
  | Some v => Ok v
  | None => Raise (KeyError k)
  end.

(** [d.popitem()], as the item taken out.  The class calls it on a
    dictionary of at most one item only, where the item taken is the one
    there is. *)
Definition popitem {V : Type} (d : gmap string V) : Outcome (string * V) :=
  match map_to_list d with
  | item :: _ => Ok item
  | [] => Raise (KeyError "popitem(): dictionary is empty")
  end.

End Py.

(** ** The outside world and the coroutine monad *)

Inductive Method : Type := GET | POST.

(** What is handed to [session.get] or [session.post]: the URL and the
    keyword arguments [params] (query string) and [data] (body), each
    absent or a dictionary. *)
Record Request : Type := {
  method : Method;
  url : string;
  params : option (gmap string pyobj);
  data : option (gmap string pyobj)
}.

(** An [aiohttp.ClientResponse]; [handle] tells responses apart. *)
Record Response : Type := {
  handle : nat;
  status : Z;
  body : string
}.

(** [aiohttp.TCPConnector(fingerprint=...)] and the [ClientSession] on it. *)
Record TCPConnector : Type := { connector_fingerprint : option (list byte) }.
Record ClientSession : Type := { connector : TCPConnector }.

Inductive Event : Type :=
  | EvSession (s : ClientSession)          (* a session was created *)
  | EvOpen (path : string)                 (* a file was opened *)
  | EvRequest (s : ClientSession) (r : Request)
  | EvText (h : nat)                       (* a response body was read *)
  | EvRelease (h : nat).                   (* a response was released *)

Definition is_request (ev : Event) : bool :=
  match ev with EvRequest _ _ => true | _ => false end.

Record World : Type := {
  w_files : gmap string string;
  w_net : Request -> option (Z * string);
  w_trace : list Event
}.

Definition log (ev : Event) (w : World) : World :=
  {| w_files := w_files w; w_net := w_net w; w_trace := w_trace w ++ [ev] |}.

Definition M (A : Type) : Type := World -> Outcome A * World.

Definition ret {A : Type} (a : A) : M A := fun w => (Ok a, w).

Definition raise {A : Type} (e : exn) : M A := fun w => (Raise e, w).

Definition bind {A B : Type} (m : M A) (k : A -> M B) : M B :=
  fun w =>
    match m w with
    | (Ok a, w') => k a w'
    | (Raise e, w') => (Raise e, w')
    end.

Definition lift {A : Type} (o : Outcome A) : M A := fun w => (o, w).

(** [try: m except ValueError as exc: handler exc] *)
Definition try_except_ValueError {A : Type} (m : M A) (handler : exn -> M A)
  : M A :=
  fun w =>
    match m w with
    | (Raise e, w') => if is_ValueError e then handler e w' else (Raise e, w')
    | r => r
    end.

Declare Scope coroutine_scope.
Delimit Scope coroutine_scope with coroutine.
Notation "x <- m ;; k" := (bind m (fun x => k))
  (at level 100, m at next level, right associativity) : coroutine_scope.
Notation "m ;;; k" := (bind m (fun _ => k))
  (at level 100, right associativity) : coroutine_scope.
Local Open Scope coroutine_scope.

(** [open(path)] followed by reading the whole text. *)
Definition open (path : string) : M string :=
  fun w =>
    match w_files w !! path with
    | Some contents => (Ok contents, log (EvOpen path) w)
    | None => (Raise (OSError path), w)
    end.

(** [session.get] and [session.post]: the request goes out and the gateway
    answers, or the transport fails. *)
Definition session_request (session : ClientSession) (r : Request)
  : M Response :=
  fun w =>
    let w' := log (EvRequest session r) w in
    match w_net w r with
    | Some (st, text) =>
        (Ok {| handle := length (w_trace w); status := st; body := text |}, w')
    | None => (Raise ClientError, w')
    end.

Definition session_get (session : ClientSession) (url : string)
    (params : option (gmap string pyobj)) : M Response :=
  session_request session
    {| method := GET; url := url; params := params; data := None |}.

Definition session_post (session : ClientSession) (url : string)
    (params data : option (gmap string pyobj)) : M Response :=
  session_request session
    {| method := POST; url := url; params := params; data := data |}.

(** [response.text()] *)
Definition text (response : Response) : M string :=
  fun w => (Ok (body response), log (EvText (handle response)) w).

(** [response.release()] *)
Definition release (response : Response) : M unit :=
  fun w => (Ok tt, log (EvRelease (handle response)) w).

(** Modelled from the spec: [raise_server_error] of [threema.gateway.util],
    which this file imports and which is not part of the sources at hand.
    Given a response and an endpoint's error family it releases the
    response and then raises the member of that family chosen by the status
    code; it never returns. *)
Definition raise_server_error {A : Type} (response : Response)
    (error : ServerErrorFamily) : M A :=
  release response ;;;
  raise (GatewayServerError error (status response)).

(** ** Collaborators outside this file *)

(** [Key.Type] of [threema.gateway.key] *)
Inductive KeyType : Type := private | public.

(** What the class calls and does not define: the key decoder of
    [threema.gateway.key], libnacl's hex decoder and public-key class, and
    the builtins [int] and [str].  Each is taken as it comes; one that can
    fail returns an [Outcome]. *)
Class Collaborators : Type := {
  Key_decode : string -> KeyType -> Outcome pyobj;
  hex_decode : string -> Outcome (list byte);
  PublicKey : list byte -> Outcome pyobj;
  int : string -> Outcome Z;
  str : pyobj -> string;
  str_of_set : gset string -> string
}.

(** ** ReceptionCapability *)

(** The member [text] is written [text_]: [text] is the name of the method
    that reads a response. *)
Inductive ReceptionCapability : Type := text_ | image | video | audio | file.

#[global] Instance ReceptionCapability_eq_dec : EqDecision ReceptionCapability.
Proof. solve_decision. Defined.

Definition ReceptionCapability_index (c : ReceptionCapability) : nat :=
  match c with
  | text_ => 0 | image => 1 | video => 2 | audio => 3 | file => 4
  end%nat.

Definition ReceptionCapability_at (n : nat) : option ReceptionCapability :=
  match n with
  | 0 => Some text_ | 1 => Some image | 2 => Some video | 3 => Some audio
  | 4 => Some file | _ => None
  end%nat.

#[global] Program Instance ReceptionCapability_countable :
  Countable ReceptionCapability :=
  inj_countable ReceptionCapability_index ReceptionCapability_at _.
Next Obligation. by intros []. Qed.

(** The value of each member. *)
Definition ReceptionCapability_value (c : ReceptionCapability) : string :=
  match c with
  | text_ => "text"
  | image => "image"
  | video => "video"
  | audio => "audio"
  | file => "file"
  end.

Definition ReceptionCapability_members : list ReceptionCapability :=
  [text_; image; video; audio; file].

(** [ReceptionCapability(value)]: the member with that value, or
    [ValueError]. *)
Definition ReceptionCapability_call (value : string)
  : Outcome ReceptionCapability :=
  match
    List.find (fun c => String.eqb (ReceptionCapability_value c) value)
      ReceptionCapability_members
  with
  | Some c => Ok c
  | None => Raise (ValueError value)
  end.

(** [{ReceptionCapability(capability.strip()) for capability in pieces}]:
    the pieces are taken in order and the first one that is no member
    raises. *)
Fixpoint capability_set (pieces : list string)
  : Outcome (gset ReceptionCapability) :=
  match pieces with
  | [] => Ok ∅
  | capability :: rest =>
      match ReceptionCapability_call (Py.strip capability) with
      | Ok c =>
          match capability_set rest with
          | Ok s => Ok ({[c]} ∪ s)
          | Raise e => Raise e
          end
      | Raise e => Raise e
      end
  end.

(** ** Connection *)

Record Connection : Type := {
  _session : ClientSession;
  _key : pyobj;
  _key_file : option string;
  id : pyobj;
  secret : pyobj
}.

(** The class attribute [Connection.fingerprint]. *)
Definition fingerprint : list byte :=
  [x6d; x7f; xa3; x1d; x80; xdc; x56; xf9;
   xc1; xed; x17; x98; x2a; xd6; x01; x7f].

(** The class attribute [Connection.urls]. *)
Definition urls : gmap string string :=
  list_to_map [
    ("get_public_key", "https://msgapi.threema.ch/pubkeys/{}");
    ("get_id_by_phone", "https://msgapi.threema.ch/lookup/phone/{}");
    ("get_id_by_phone_hash", "https://msgapi.threema.ch/lookup/phone_hash/{}");
    ("get_id_by_email", "https://msgapi.threema.ch/lookup/email/{}");
    ("get_id_by_email_hash", "https://msgapi.threema.ch/lookup/email_hash/{}");
    ("get_reception_capabilities", "https://msgapi.threema.ch/capabilities/{}");
    ("get_credits", "https://msgapi.threema.ch/credits");
    ("send_simple", "https://msgapi.threema.ch/send_simple");
    ("send_e2e", "https://msgapi.threema.ch/send_e2e");
    ("upload_blob", "https://msgapi.threema.ch/upload_blob");
    ("download_blob", "https://msgapi.threema.ch/blobs/{}")
  ].

(** The local dictionary [modes] of [get_id]. *)
Definition modes : gmap string string :=
  list_to_map [
    ("phone", "get_id_by_phone");
    ("phone_hash", "get_id_by_phone_hash");
    ("email", "get_id_by_email");
    ("email_hash", "get_id_by_email_hash")
  ].

Definition with_key (self : Connection) (k : pyobj) : Connection :=
  {| _session := _session self; _key := k; _key_file := _key_file self;
     id := id self; secret := secret self |}.

Definition with_key_file (self : Connection) (p : option string)
  : Connection :=
  {| _session := _session self; _key := _key self; _key_file := p;
     id := id self; secret := secret self |}.

Section Methods.

Context `{Collaborators}.

(** The [key] property, read. *)
Definition key (self : Connection) : M pyobj :=
  if is_None (_key self)
  then raise (GatewayKeyError "Sender's private key not specified")
  else ret (_key self).

(** The [key] property, assigned. *)
Definition key_setter (self : Connection) (key : pyobj) : M Connection :=
  key <- match key with
         | PyStr s => lift (Key_decode s private)
         | _ => ret key
         end ;;
  ret (with_key self key).

(** The [key_file] property, read. *)
Definition key_file (self : Connection) : M (option string) :=
  ret (_key_file self).

(** The [key_file] property, assigned. *)
Definition key_file_setter (self : Connection) (key_file : option string)
  : M Connection :=
  self <- match key_file with
          | Some path =>
              contents <- open path ;;
              key_setter self (PyStr (Py.strip (Py.readline contents)))
          | None => ret self
          end ;;
  ret (with_key_file self key_file).

(** [Connection(id, secret, key, key_file, fingerprint, verify_fingerprint)] *)
Definition __init__ (id secret key : pyobj) (key_file : option string)
    (fingerprint' : option (list byte)) (verify_fingerprint : bool)
  : M Connection :=
  let fingerprint' :=
    match fingerprint' with
    | None => if verify_fingerprint then Some fingerprint else None
    | Some _ => fingerprint'
    end in
  let connector := {| connector_fingerprint := fingerprint' |} in
  session <- (fun w => let s := {| connector := connector |} in
                       (Ok s, log (EvSession s) w)) ;;
  let self := {| _session := session; _key := PyNone; _key_file := None;
                 id := id; secret := secret |} in
  self <- key_setter self key ;;
  self <- key_file_setter self key_file ;;
  ret self.

(** [_get(url)] and [_get(url, params=params)]; [params] is [None] when
    the keyword is not given.  Other arguments would go to [session.get]
    untouched and no caller passes any. *)
Definition _get (self : Connection) (url : string)
    (params : option (gmap string pyobj)) : M Response :=
  let params := match params with Some d => d | None => ∅ end in
  let params := Py.setdefault params "from" (id self) in
  let params := Py.setdefault params "secret" (secret self) in
  session_get (_session self) url (Some params).

Definition get_public_key (self : Connection) (id : pyobj) : M pyobj :=
  template <- lift (Py.getitem urls "get_public_key") ;;
  response <- _get self (Py.format template (str id)) None ;;
  if status response =? 200 then
    text <- text response ;;
    key <- lift (hex_decode text) ;;
    lift (PublicKey key)
  else raise_server_error response KeyServerError.

Definition get_id (self : Connection) (mode : gmap string pyobj) : M string :=
  if decide (0 < size (dom mode ∖ dom modes))%nat then
    raise (IDError (Py.format "Unknown mode selected: {}"
                      (str_of_set (dom mode))))
  else if decide (1 < size mode)%nat then
    raise (IDError "Use (only) one of the possible modes to get a Threema ID")
  else
    item <- lift (Py.popitem mode) ;;
    let '(mode, value) := item in
    name <- lift (Py.getitem modes mode) ;;
    template <- lift (Py.getitem urls name) ;;
    response <- _get self (Py.format template (str value)) None ;;
    if status response =? 200 then text response
    else raise_server_error response IDServerError.

Definition get_reception_capabilities (self : Connection) (id : pyobj)
  : M (gset ReceptionCapability) :=
  template <- lift (Py.getitem urls "get_reception_capabilities") ;;
  response <- _get self (Py.format template (str id)) None ;;
  if status response =? 200 then
    try_except_ValueError
      (text <- text response ;;
       lift (capability_set (Py.split "," text)))
      (fun exc =>
         release response ;;;
         raise (ReceptionCapabilitiesError "Invalid reception capability"))
  else raise_server_error response ReceptionCapabilitiesServerError.

Definition get_credits (self : Connection) : M Z :=
  url <- lift (Py.getitem urls "get_credits") ;;
  response <- _get self url None ;;
  if status response =? 200 then
    text <- text response ;;
    lift (int text)
  else raise_server_error response CreditsServerError.

Definition _send (self : Connection) (url : string)
    (data : gmap string pyobj) : M string :=
  let data := Py.setdefault data "from" (id self) in
  let data := Py.setdefault data "secret" (secret self) in
  response <- session_post (_session self) url None (Some data) ;;
  if status response =? 200 then text response
  else raise_server_error response MessageServerError.

Definition send_simple (self : Connection) (data : gmap string pyobj)
  : M string :=
  url <- lift (Py.getitem urls "send_simple") ;;
  _send self url data.

Definition send_e2e (self : Connection) (data : gmap string pyobj)
  : M string :=
  url <- lift (Py.getitem urls "send_e2e") ;;
  _send self url data.

Definition _upload (self : Connection) (url : string) (data : pyobj)
  : M string :=
  let params : gmap string pyobj :=
    <["secret" := secret self]> (<["from" := id self]> ∅) in
  let files : gmap string pyobj := {["blob" := data]} in
  response <- session_post (_session self) url (Some params) (Some files) ;;
  if status response =? 200 then text response
  else raise_server_error response BlobServerError.

Definition upload (self : Connection) (data : pyobj) : M string :=
  url <- lift (Py.getitem urls "upload_blob") ;;
  _upload self url data.

Definition download (self : Connection) (id : pyobj) : M Response :=
  template <- lift (Py.getitem urls "download_blob") ;;
  response <- _get self (Py.format template (str id)) None ;;
  if status response =? 200 then ret response
  else raise_server_error response BlobServerError.

End Methods.

(** ** Reading a run *)

(** The events a computation appends when run from [w]. *)
Definition events_of {A : Type} (m : M A) (w : World) : list Event :=
  drop (length (w_trace w)) (w_trace (snd (m w))).

(** The requests among them, in the order sent. *)
Definition requests_of {A : Type} (m : M A) (w : World) : list Request :=
  omap (fun ev => match ev with EvRequest _ r => Some r | _ => None end)
       (events_of m w).

(** Fixed collaborators and a fixed world to run examples in: keys are
    decoded to the object numbered by their length, and the empty text is
    no key. *)
Definition demo_collaborators : Collaborators := {|
  Key_decode := fun s _ =>
    match s with
    | EmptyString => Raise (GatewayKeyError "empty")
    | _ => Ok (PyObject (Pos.of_nat (String.length s)))
    end;
  hex_decode := fun _ => Ok [];
  PublicKey := fun b => Ok (PyBytes b);
  int := fun _ => Ok 0;
  str := fun o => match o with PyStr s => s | _ => "object" end;
  str_of_set := fun _ => "{...}"
|}.

Definition demo_network (st : Z) (text : string) : Request -> option (Z * string) :=
  fun _ => Some (st, text).

Definition demo_world (st : Z) (text : string) : World := {|
  w_files := {[ "private.key" := "  private:0123
second line" ]};
  w_net := demo_network st text;
  w_trace := []
|}.

Definition demo_connection : Connection := {|
  _session := {| connector := {| connector_fingerprint := None |} |};
  _key := PyObject 7;
  _key_file := None;
  id := PyStr "*MYGATEW";
  secret := PyStr "hunter2"
|}.

(** The session a connector with fingerprint [fp] gives. *)
Definition pinned_session (fp : option (list byte)) : ClientSession :=
  {| connector := {| connector_fingerprint := fp |} |}.

Definition no_request (evs : list Event) : bool :=
  forallb (fun ev => negb (is_request ev)) evs.

(** A run of the constructor that creates the session [s] first and sends
    nothing, and whose connection, if one results, holds [s]. *)
Definition constructs_on (s : ClientSession) (m : M Connection) (w : World)
  : Prop :=
  (exists evs, events_of m w = EvSession s :: evs /\ no_request evs = true)
  /\ match fst (m w) with
     | Ok self => _session self = s
     | Raise _ => True
     end.

(** What [{'from': self.id, 'secret': self.secret}] holds. *)
Definition default_params (self : Connection) : gmap string pyobj :=
  <["secret" := secret self]> (<["from" := id self]> ∅).

(** The dictionary [outgoing] carries both credentials, each the caller's
    own where [supplied] has one and the connection's otherwise, and every
    item of [supplied] as it was. *)
Definition injected (self : Connection) (supplied outgoing : gmap string pyobj)
  : Prop :=
  outgoing !! "from" = Some (default (id self) (supplied !! "from"))
  /\ outgoing !! "secret" = Some (default (secret self) (supplied !! "secret"))
  /\ forall k v, supplied !! k = Some v -> outgoing !! k = Some v.

(** Running [m] from [w] sends exactly one request, by [meth], whose
    dictionary (the query parameters of a GET, the body of a POST) is
    [supplied] with the credentials injected. *)
Definition sends_injected {A : Type} (self : Connection) (meth : Method)
    (supplied : gmap string pyobj) (m : M A) (w : World) : Prop :=
  exists url q,
    injected self supplied q
    /\ requests_of m w
       = [match meth with
          | GET => {| method := GET; url := url; params := Some q;
                      data := None |}
          | POST => {| method := POST; url := url; params := None;
                       data := Some q |}
          end].

(** Running [m] from [w] sends exactly one request and the gateway answers
    it with status [st] and body [t]. *)
Definition answered_with {A : Type} (m : M A) (w : World) (st : Z) (t : string)
  : Prop :=
  exists r, requests_of m w = [r] /\ w_net w r = Some (st, t).

(** A piece of a capabilities body names the capability [c]. *)
Definition names_capability (piece : string) (c : ReceptionCapability) : Prop :=
  Py.strip piece = ReceptionCapability_value c.

(** The request [_get] sends when called with a URL alone. *)
Definition get_request (self : Connection) (url : string) : Request :=
  {| method := GET; url := url; params := Some (default_params self);
     data := None |}.

(** The shape all endpoint methods share: send [r], then on status 200 go
    on with [k200], else hand the response to [raise_server_error]. *)
Definition endpoint {A : Type} (s : ClientSession) (r : Request)
    (fam : ServerErrorFamily) (k200 : Response -> M A) : M A :=
  response <- session_request s r ;;
  if status response =? 200 then k200 response
  else raise_server_error response fam.

(** A computation that only appends to the trace and sends nothing. *)
Definition quiet {A : Type} (m : M A) : Prop :=
  forall w, exists evs,
    w_trace (snd (m w)) = (w_trace w ++ evs)%list /\ no_request evs = true.

(** Running [m] from [w] raises the member of [fam] for status [st]. *)
Definition raises_family {A : Type} (fam : ServerErrorFamily) (m : M A)
    (w : World) (st : Z) : Prop :=
  fst (m w) = Raise (GatewayServerError fam st).

(** Running [m] from [w] sends exactly one request and the transport
    gives no answer to it. *)
Definition unanswered {A : Type} (m : M A) (w : World) : Prop :=
  exists r, requests_of m w = [r] /\ w_net w r = None.

(** Running [m] from [w] raises the transport's error right after its
    request went out on the connection's session. *)
Definition fails_unanswered {A : Type} (self : Connection) (m : M A)
    (w : World) : Prop :=
  exists r, m w = (Raise ClientError, log (EvRequest (_session self) r) w).

(** Running [m] from [w] sends a request, reads the body of the response
    and returns [t]; the response is not released. *)
Definition returns_text_read (self : Connection) (m : M string) (w : World)
    (t : string) : Prop :=
  exists r,
    m w = (Ok t, log (EvText (length (w_trace w)))
                   (log (EvRequest (_session self) r) w)).

(** The text holds neither a line feed nor a carriage return. *)
Fixpoint no_line_end (s : string) : bool :=
  match s with
  | EmptyString => true
  | String c r =>
      negb ((N_of_ascii c =? 10)%N || (N_of_ascii c =? 13)%N)
      && no_line_end r
  end.

(** The fingerprint [__init__] hands to the connector. *)
Definition connector_fingerprint_of (fp : option (list byte)) (vf : bool)
  : option (list byte) :=
  match fp with
  | None => if vf then Some fingerprint else None
  | Some _ => fp
  end.

(** Every request among the events went out on the session [s]. *)
Definition only_on (s : ClientSession) (evs : list Event) : Prop :=
  forall s' r, EvRequest s' r ∈ evs -> s' = s.

(** A world whose transport answers nothing and which holds no file. *)
Definition demo_silent_world : World := {|
  w_files := ∅;
  w_net := fun _ => None;
  w_trace := []
|}.

(** ** The key provider *)

Section KeyProvider.

Context `{Collaborators}.

Lemma key_unset (self : Connection) (w : World) :
  key (with_key self PyNone) w
  = (Raise (GatewayKeyError "Sender's private key not specified"), w).
Proof. reflexivity. Qed.

Lemma key_set (self : Connection) (w : World) :
  is_None (_key self) = false -> key self w = (Ok (_key self), w).
Proof. unfold key. intros ->. reflexivity. Qed.

Lemma key_never_None (self : Connection) (w : World) :
  fst (key self w) <> Ok PyNone.
Proof.
  unfold key. destruct (_key self) eqn:E; simpl; rewrite ?E; discriminate.
Qed.

Lemma key_setter_value (self : Connection) (k : pyobj) (w : World) :
  isinstance_str k = false ->
  key_setter self k w = (Ok (with_key self k), w).
Proof. destruct k; simpl; intros Hs; try discriminate; reflexivity. Qed.

Lemma key_setter_text (self : Connection) (s : string) (w : World) :
  key_setter self (PyStr s) w
  = match Key_decode s private with
    | Ok k => (Ok (with_key self k), w)
    | Raise e => (Raise e, w)
    end.
Proof.
  unfold key_setter, bind, lift, ret.
  destruct (Key_decode s private); reflexivity.
Qed.

Lemma key_file_setter_None (self : Connection) (w : World) :
  key_file_setter self None w = (Ok (with_key_file self None), w).
Proof. reflexivity. Qed.

Lemma key_file_setter_path (self : Connection) (path : string) (w : World) :
  key_file_setter self (Some path) w
  = match w_files w !! path with
    | None => (Raise (OSError path), w)
    | Some contents =>
        match Key_decode (Py.strip (Py.readline contents)) private with
        | Ok k =>
            (Ok (with_key_file (with_key self k) (Some path)),
             log (EvOpen path) w)
        | Raise e => (Raise e, log (EvOpen path) w)
        end
    end.
Proof.
  unfold key_file_setter, bind, open.
  destruct (w_files w !! path) as [contents|]; [|reflexivity].
  rewrite key_setter_text.
  destruct (Key_decode _ private); reflexivity.
Qed.

(** C3. On a connection whose key is unset, be it freshly constructed
    without a key or cleared by assigning [None], reading [key] raises
    [GatewayKeyError]; a read never returns [None]; and after assigning an
    object [k] that is neither a [str] nor [None], reading [key] returns
    exactly [k]. *)
Theorem key_unset_raises_value_round_trips
    (self : Connection) (k : pyobj) (w : World) :
  isinstance_str k = false ->
  is_None k = false ->
  (* unset *)
  key (with_key self PyNone) w
  = (Raise (GatewayKeyError "Sender's private key not specified"), w)
  (* freshly constructed without a key *)
  /\ (forall id secret fp vf,
        exists self0 w0,
          __init__ id secret PyNone None fp vf w = (Ok self0, w0)
          /\ key self0 w0
             = (Raise (GatewayKeyError "Sender's private key not specified"),
                w0))
  (* cleared *)
  /\ (exists self0,
        key_setter self PyNone w = (Ok self0, w)
        /\ key self0 w
           = (Raise (GatewayKeyError "Sender's private key not specified"),
              w))
  (* no substitute *)
  /\ (forall self0, fst (key self0 w) <> Ok PyNone)
  (* round trip *)
  /\ (exists self0,
        key_setter self k w = (Ok self0, w)
        /\ key self0 w = (Ok k, w)).
Proof.
  intros Hstr Hnone. repeat split.
  - intros i s fp vf. eexists _, _. split; reflexivity.
  - eexists. split; reflexivity.
  - intros self0. apply key_never_None.
  - exists (with_key self k). split.
    + by apply key_setter_value.
    + by rewrite key_set.
Qed.

(** C6, as amended.  Assigning [None] to [key] clears the key: nothing is
    stored and a read raises [GatewayKeyError].  Assigning [None] to
    [key_file] raises nothing and opens no file, resets the recorded path
    and leaves the stored key as it was. *)
Theorem assigning_None_key_clears_key_file_keeps
    (self : Connection) (w : World) :
  (key_setter self PyNone w = (Ok (with_key self PyNone), w)
   /\ _key (with_key self PyNone) = PyNone
   /\ key (with_key self PyNone) w
      = (Raise (GatewayKeyError "Sender's private key not specified"), w))
  /\ (key_file_setter self None w = (Ok (with_key_file self None), w)
      /\ _key_file (with_key_file self None) = None
      /\ _key (with_key_file self None) = _key self
      /\ key (with_key_file self None) w = key self w).
Proof. repeat split. Qed.

End KeyProvider.

Lemma key_round_trip_witness :
  exists self0,
    key_setter (H := demo_collaborators) demo_connection (PyBytes [x01; x02])
      (demo_world 200 "")
    = (Ok self0, demo_world 200 "")
    /\ key self0 (demo_world 200 "") = (Ok (PyBytes [x01; x02]), demo_world 200 "").
Proof.
  apply (key_unset_raises_value_round_trips (H := demo_collaborators)
           demo_connection (PyBytes [x01; x02]) (demo_world 200 ""));
    reflexivity.
Defined.

(** C6, as first stated, fails on the key-file path: on a connection that
    holds a key, assigning [None] to [key_file] succeeds and a read of
    [key] afterwards still returns that key. *)
Lemma key_file_None_keeps_key :
  exists self0,
    key_file_setter (H := demo_collaborators) demo_connection None
      (demo_world 200 "")
    = (Ok self0, demo_world 200 "")
    /\ _key self0 = PyObject 7
    /\ fst (key self0 (demo_world 200 "")) = Ok (PyObject 7)
    /\ fst (key self0 (demo_world 200 ""))
       <> Raise (GatewayKeyError "Sender's private key not specified").
Proof. eexists. repeat split. discriminate. Qed.

(** ** The constructor *)

Section Constructor.

Context `{Collaborators}.

Lemma events_of_log {A : Type} (m : M A) (w : World) (evs : list Event) :
  w_trace (snd (m w)) = (w_trace w ++ evs)%list -> events_of m w = evs.
Proof. unfold events_of. intros ->. apply drop_app_length. Qed.

(** The constructor, run: the session comes first, then the direct key,
    then the key file. *)
Lemma init_unfold id secret key kf fp vf (w : World) :
  let s := pinned_session
             match fp with
             | None => if vf : bool then Some fingerprint else None
             | Some _ => fp
             end in
  let self0 := {| _session := s; _key := PyNone; _key_file := None;
                  id := id; secret := secret |} in
  __init__ id secret key kf fp vf w
  = match key_setter self0 key (log (EvSession s) w) with
    | (Ok self1, w1) => key_file_setter self1 kf w1
    | (Raise e, w1) => (Raise e, w1)
    end.
Proof.
  unfold __init__, bind; simpl.
  destruct (key_setter _ key _) as [[self1|e] w1]; [|reflexivity].
  destruct (key_file_setter self1 kf w1) as [[self2|e] w2]; reflexivity.
Qed.

Lemma key_setter_world (self : Connection) (k : pyobj) (w : World) :
  snd (key_setter self k w) = w.
Proof.
  destruct k; try reflexivity.
  rewrite key_setter_text. destruct (Key_decode s private); reflexivity.
Qed.

Lemma key_setter_session (self self1 : Connection) (k : pyobj) (w w1 : World) :
  key_setter self k w = (Ok self1, w1) -> _session self1 = _session self.
Proof.
  destruct k; try (intros [= <- _]; reflexivity).
  rewrite key_setter_text. destruct (Key_decode s private); [|discriminate].
  intros [= <- _]; reflexivity.
Qed.

Lemma constructs_on_run (s : ClientSession) (m : M Connection) (w : World)
    (r : Outcome Connection * World) :
  m w = r ->
  (exists evs, w_trace (snd r) = (w_trace w ++ EvSession s :: evs)%list
               /\ no_request evs = true) ->
  match fst r with Ok self => _session self = s | Raise _ => True end ->
  constructs_on s m w.
Proof.
  intros Hr (evs & Ht & Hn) Hs. split.
  - exists evs. split; [|exact Hn]. apply events_of_log. by rewrite Hr.
  - by rewrite Hr.
Qed.

Lemma init_constructs id secret key kf fp vf (w : World) :
  constructs_on
    (pinned_session
       match fp with
       | None => if vf : bool then Some fingerprint else None
       | Some _ => fp
       end)
    (__init__ id secret key kf fp vf) w.
Proof.
  eapply constructs_on_run; [apply init_unfold|..]; simpl;
    set (s := pinned_session _);
    set (self0 := Build_Connection s PyNone None id secret);
    pose proof (key_setter_world self0 key (log (EvSession s) w)) as Hw;
    destruct (key_setter self0 key (log (EvSession s) w))
      as [[self1|e] w1] eqn:E;
    simpl in Hw; subst w1; simpl;
    try (exists []; split; reflexivity); try exact I;
    apply key_setter_session in E; simpl in E;
    (destruct kf as [path|];
     [rewrite key_file_setter_path; simpl;
      destruct (w_files w !! path) as [contents|];
      [destruct (Key_decode _ private)|]
     |rewrite key_file_setter_None]);
    simpl; try exact I; try exact E;
    try (exists []; split; reflexivity);
    exists [EvOpen path]; (split; [|reflexivity]);
    by rewrite <- app_assoc.
Qed.

(** C8. Constructed with [verify_fingerprint = True] and no fingerprint, a
    connection's session is pinned to the class constant [fingerprint],
    which is 16 bytes long; the session is the first thing the constructor
    makes and the constructor sends no request. *)
Theorem fallback_fingerprint_pinned_at_construction
    id secret key kf (w : World) :
  length fingerprint = 16%nat
  /\ constructs_on (pinned_session (Some fingerprint))
       (__init__ id secret key kf None true) w.
Proof. split; [reflexivity|]. apply (init_constructs _ _ _ _ None true). Qed.

(** C10. Constructed with a fingerprint, a connection's session is pinned
    to it whatever [verify_fingerprint] is; the flag decides only, when no
    fingerprint is given, between the fallback and no pinning. *)
Theorem explicit_fingerprint_always_pinned
    id secret key kf (f : list byte) (vf : bool) (w : World) :
  constructs_on (pinned_session (Some f))
    (__init__ id secret key kf (Some f) vf) w
  /\ constructs_on (pinned_session (Some fingerprint))
       (__init__ id secret key kf None true) w
  /\ constructs_on (pinned_session None)
       (__init__ id secret key kf None false) w.
Proof.
  split; [|split].
  - apply (init_constructs _ _ _ _ (Some f) vf).
  - apply (init_constructs _ _ _ _ None true).
  - apply (init_constructs _ _ _ _ None false).
Qed.

(** C9. When a connection is constructed with a key and a key file, the
    direct key was applied first and accepted, the file was opened after
    the session was made, and the key the connection holds is the one
    decoded from the stripped first line of the file. *)
Theorem key_file_takes_precedence
    id secret key (path : string) fp vf (w w' : World) (self : Connection) :
  __init__ id secret key (Some path) fp vf w = (Ok self, w') ->
  (exists self1 w1,
     key_setter
       {| _session := _session self; _key := PyNone; _key_file := None;
          id := id; secret := secret |} key w1 = (Ok self1, w1))
  /\ (exists contents,
        w_files w !! path = Some contents
        /\ Key_decode (Py.strip (Py.readline contents)) private
           = Ok (_key self))
  /\ _key_file self = Some path
  /\ events_of (__init__ id secret key (Some path) fp vf) w
     = [EvSession (_session self); EvOpen path].
Proof.
  intros Hrun.
  pose proof Hrun as Hrun0.
  rewrite init_unfold in Hrun. simpl in Hrun.
  set (s := pinned_session _) in Hrun.
  set (self0 := Build_Connection s PyNone None id secret) in Hrun.
  pose proof (key_setter_world self0 key (log (EvSession s) w)) as Hw.
  destruct (key_setter self0 key (log (EvSession s) w)) as [[self1|e] w1] eqn:E;
    simpl in Hw; subst w1; [|discriminate].
  pose proof (key_setter_session _ _ _ _ _ E) as Hs. simpl in Hs.
  rewrite key_file_setter_path in Hrun. simpl in Hrun.
  destruct (w_files w !! path) as [contents|] eqn:Hf; [|discriminate].
  destruct (Key_decode _ private) as [k|] eqn:Hk; [|discriminate].
  injection Hrun as <- <-. simpl. rewrite Hs.
  repeat split.
  - exists self1, (log (EvSession s) w). exact E.
  - exists contents. split; [reflexivity|exact Hk].
  - apply events_of_log. rewrite Hrun0. simpl. by rewrite <- app_assoc.
Qed.

End Constructor.

Lemma key_file_takes_precedence_witness :
  exists self,
    fst (__init__ (H := demo_collaborators) (PyStr "*MYGATEW") (PyStr "hunter2")
           (PyObject 7) (Some "private.key") None false (demo_world 200 ""))
    = Ok self
    /\ _key self = PyObject 12
    /\ _key_file self = Some "private.key".
Proof.
  eexists. split; [reflexivity|].
  destruct (key_file_takes_precedence (H := demo_collaborators)
              (PyStr "*MYGATEW") (PyStr "hunter2") (PyObject 7) "private.key"
              None false (demo_world 200 "") _ _ eq_refl)
    as (_ & _ & Hp & _).
  split; [reflexivity|exact Hp].
Defined.

(** ** The request dispatcher *)

Section Dispatcher.

Context `{Collaborators}.

Lemma setdefault_lookup {V : Type} (d : gmap string V) (k k' : string) (v : V) :
  Py.setdefault d k v !! k'
  = match d !! k' with
    | Some x => Some x
    | None => if decide (k = k') then Some v else None
    end.
Proof.
  unfold Py.setdefault. destruct (d !! k) as [x|] eqn:E.
  - destruct (d !! k') eqn:E'; [done|]. case_decide; [congruence|done].
  - rewrite lookup_insert. case_decide; subst.
    + by rewrite E.
    + by destruct (d !! k').
Qed.

Lemma setdefault_injected (self : Connection) (d : gmap string pyobj) :
  injected self d
    (Py.setdefault (Py.setdefault d "from" (id self)) "secret" (secret self)).
Proof.
  repeat split.
  - rewrite !setdefault_lookup. destruct (d !! "from"); by simpl.
  - rewrite !setdefault_lookup. destruct (d !! "secret"); by simpl.
  - intros k v Hk. rewrite !setdefault_lookup. by rewrite Hk.
Qed.

Lemma setdefault_empty (self : Connection) :
  Py.setdefault (Py.setdefault ∅ "from" (id self)) "secret" (secret self)
  = default_params self.
Proof. reflexivity. Qed.

Lemma bind_lift {A B : Type} (o : Outcome A) (k : A -> M B) (w : World) :
  bind (lift o) k w
  = match o with Ok a => k a w | Raise e => (Raise e, w) end.
Proof. by destruct o. Qed.

Lemma requests_of_ext {A : Type} (m m' : M A) (w : World) :
  m w = m' w -> requests_of m w = requests_of m' w.
Proof. unfold requests_of, events_of. by intros ->. Qed.

Lemma requests_of_fixed {A : Type} (m : M A) (w : World) :
  snd (m w) = w -> requests_of m w = [].
Proof.
  unfold requests_of, events_of. intros ->. by rewrite drop_all.
Qed.

Lemma quiet_ret {A : Type} (a : A) : quiet (ret a).
Proof. intros w. exists []. by rewrite app_nil_r. Qed.

Lemma quiet_raise {A : Type} (e : exn) : quiet (raise (A := A) e).
Proof. intros w. exists []. by rewrite app_nil_r. Qed.

Lemma quiet_lift {A : Type} (o : Outcome A) : quiet (lift o).
Proof. intros w. exists []. by rewrite app_nil_r. Qed.

Lemma quiet_text (response : Response) : quiet (text response).
Proof. intros w. by exists [EvText (handle response)]. Qed.

Lemma quiet_release (response : Response) : quiet (release response).
Proof. intros w. by exists [EvRelease (handle response)]. Qed.

Lemma no_request_app (evs evs' : list Event) :
  no_request evs = true -> no_request evs' = true ->
  no_request (evs ++ evs') = true.
Proof. unfold no_request. rewrite forallb_app. by intros -> ->. Qed.

Lemma quiet_bind {A B : Type} (m : M A) (k : A -> M B) :
  quiet m -> (forall a, quiet (k a)) -> quiet (bind m k).
Proof.
  intros Hm Hk w. unfold bind. destruct (Hm w) as (evs & Ht & Hn).
  destruct (m w) as [[a|e] w1]; simpl in Ht.
  - destruct (Hk a w1) as (evs' & Ht' & Hn').
    exists (evs ++ evs')%list. split; [|by apply no_request_app].
    by rewrite Ht', Ht, app_assoc.
  - by exists evs.
Qed.

Lemma quiet_try {A : Type} (m : M A) (handler : exn -> M A) :
  quiet m -> (forall e, quiet (handler e)) ->
  quiet (try_except_ValueError m handler).
Proof.
  intros Hm Hh w. unfold try_except_ValueError.
  destruct (Hm w) as (evs & Ht & Hn).
  destruct (m w) as [[a|e] w1]; simpl in Ht; [by exists evs|].
  destruct (is_ValueError e); [|by exists evs].
  destruct (Hh e w1) as (evs' & Ht' & Hn').
  exists (evs ++ evs')%list. split; [|by apply no_request_app].
  by rewrite Ht', Ht, app_assoc.
Qed.

(** How every endpoint method runs: one request; no answer, an answer
    other than 200, or an answer of 200 handed to what follows. *)
Lemma endpoint_run {A : Type} (s : ClientSession) (r : Request)
    (k200 : Response -> M A) (fam : ServerErrorFamily) (w : World) :
  bind (session_request s r)
       (fun response =>
          if status response =? 200 then k200 response
          else raise_server_error response fam) w
  = match w_net w r with
    | None => (Raise ClientError, log (EvRequest s r) w)
    | Some (st, t) =>
        if st =? 200
        then k200 {| handle := length (w_trace w); status := st; body := t |}
                  (log (EvRequest s r) w)
        else (Raise (GatewayServerError fam st),
              log (EvRelease (length (w_trace w))) (log (EvRequest s r) w))
    end.
Proof.
  unfold bind, session_request.
  destruct (w_net w r) as [[st t]|]; [|reflexivity].
  simpl. destruct (st =? 200); reflexivity.
Qed.

Lemma no_request_omap (evs : list Event) :
  no_request evs = true ->
  omap (fun ev => match ev with EvRequest _ r => Some r | _ => None end) evs
  = [].
Proof.
  unfold no_request.
  induction evs as [|[] evs IH]; simpl; try done; by intros ->%IH.
Qed.

(** What an endpoint method appends to the trace: its request, on the
    session it was given, and after that no other request. *)
Lemma endpoint_events {A : Type} (s : ClientSession) (r : Request)
    (fam : ServerErrorFamily) (k200 : Response -> M A) (w : World) :
  (forall response, quiet (k200 response)) ->
  exists evs,
    events_of (endpoint s r fam k200) w = EvRequest s r :: evs
    /\ no_request evs = true.
Proof.
  intros Hk. unfold events_of, endpoint.
  rewrite endpoint_run.
  destruct (w_net w r) as [[st t]|]; simpl.
  - destruct (st =? 200); simpl.
    + destruct (Hk {| handle := length (w_trace w); status := st; body := t |}
                  (log (EvRequest s r) w)) as (evs & -> & Hn).
      exists evs. simpl. by rewrite <- app_assoc, drop_app_length.
    + exists [EvRelease (length (w_trace w))].
      by rewrite <- app_assoc, drop_app_length.
  - exists []. by rewrite drop_app_length.
Qed.

(** One request is all an endpoint method sends. *)
Lemma endpoint_requests {A : Type} (s : ClientSession) (r : Request)
    (fam : ServerErrorFamily) (k200 : Response -> M A) (w : World) :
  (forall response, quiet (k200 response)) ->
  requests_of (endpoint s r fam k200) w = [r].
Proof.
  intros Hk. unfold requests_of.
  destruct (endpoint_events s r fam k200 w Hk) as (evs & -> & Hn).
  simpl. by rewrite no_request_omap.
Qed.

(** An answer other than 200 becomes the family's error. *)
Lemma endpoint_non200 {A : Type} (s : ClientSession) (r : Request)
    (fam : ServerErrorFamily) (k200 : Response -> M A) (w : World)
    (st : Z) (t : string) :
  w_net w r = Some (st, t) -> st <> 200 ->
  endpoint s r fam k200 w
  = (Raise (GatewayServerError fam st),
     log (EvRelease (length (w_trace w))) (log (EvRequest s r) w)).
Proof.
  intros Hr Hst. unfold endpoint. rewrite endpoint_run, Hr.
  destruct (Z.eqb_spec st 200); [done|reflexivity].
Qed.

(** An answer of 200 is handed on. *)
Lemma endpoint_200 {A : Type} (s : ClientSession) (r : Request)
    (fam : ServerErrorFamily) (k200 : Response -> M A) (w : World)
    (t : string) :
  w_net w r = Some (200, t) ->
  endpoint s r fam k200 w
  = k200 {| handle := length (w_trace w); status := 200; body := t |}
         (log (EvRequest s r) w).
Proof. intros Hr. unfold endpoint. by rewrite endpoint_run, Hr. Qed.

(** Each method as an endpoint. *)
Lemma get_public_key_endpoint (self : Connection) (i : pyobj) (w : World) :
  get_public_key self i w
  = endpoint (_session self)
      (get_request self
         (Py.format "https://msgapi.threema.ch/pubkeys/{}" (str i)))
      KeyServerError
      (fun response =>
         text <- text response ;;
         key <- lift (hex_decode text) ;;
         lift (PublicKey key)) w.
Proof. reflexivity. Qed.

Lemma get_reception_capabilities_endpoint
    (self : Connection) (i : pyobj) (w : World) :
  get_reception_capabilities self i w
  = endpoint (_session self)
      (get_request self
         (Py.format "https://msgapi.threema.ch/capabilities/{}" (str i)))
      ReceptionCapabilitiesServerError
      (fun response =>
         try_except_ValueError
           (text <- text response ;;
            lift (capability_set (Py.split "," text)))
           (fun exc =>
              release response ;;;
              raise (ReceptionCapabilitiesError
                       "Invalid reception capability"))) w.
Proof. reflexivity. Qed.

Lemma get_credits_endpoint (self : Connection) (w : World) :
  get_credits self w
  = endpoint (_session self)
      (get_request self "https://msgapi.threema.ch/credits")
      CreditsServerError
      (fun response => text <- text response ;; lift (int text)) w.
Proof. reflexivity. Qed.

Lemma download_endpoint (self : Connection) (i : pyobj) (w : World) :
  download self i w
  = endpoint (_session self)
      (get_request self
         (Py.format "https://msgapi.threema.ch/blobs/{}" (str i)))
      BlobServerError ret w.
Proof. reflexivity. Qed.

Lemma _get_request (self : Connection) (url : string)
    (p : option (gmap string pyobj)) (w : World) :
  _get self url p w
  = session_request (_session self)
      {| method := GET; url := url;
         params := Some (Py.setdefault
                           (Py.setdefault (default ∅ p) "from" (id self))
                           "secret" (secret self));
         data := None |} w.
Proof. by destruct p. Qed.

Lemma _send_endpoint (self : Connection) (url : string)
    (d : gmap string pyobj) (w : World) :
  _send self url d w
  = endpoint (_session self)
      {| method := POST; url := url; params := None;
         data := Some (Py.setdefault
                         (Py.setdefault d "from" (id self))
                         "secret" (secret self)) |}
      MessageServerError text w.
Proof. reflexivity. Qed.

Lemma _upload_endpoint (self : Connection) (url : string) (blob : pyobj)
    (w : World) :
  _upload self url blob w
  = endpoint (_session self)
      {| method := POST; url := url; params := Some (default_params self);
         data := Some {[ "blob" := blob ]} |}
      BlobServerError text w.
Proof. reflexivity. Qed.

Lemma send_simple_endpoint (self : Connection) (d : gmap string pyobj)
    (w : World) :
  send_simple self d w
  = _send self "https://msgapi.threema.ch/send_simple" d w.
Proof. reflexivity. Qed.

Lemma send_e2e_endpoint (self : Connection) (d : gmap string pyobj)
    (w : World) :
  send_e2e self d w = _send self "https://msgapi.threema.ch/send_e2e" d w.
Proof. reflexivity. Qed.

Lemma upload_endpoint (self : Connection) (blob : pyobj) (w : World) :
  upload self blob w
  = _upload self "https://msgapi.threema.ch/upload_blob" blob w.
Proof. reflexivity. Qed.

(** [get_id] either raises before it touches the world or goes on as an
    endpoint. *)
Lemma get_id_cases (self : Connection) (mode : gmap string pyobj) (w : World) :
  (exists e, get_id self mode w = (Raise e, w))
  \/ (exists url,
        get_id self mode w
        = endpoint (_session self) (get_request self url) IDServerError
            text w).
Proof.
  unfold get_id.
  case_decide; [left; by eexists|].
  case_decide; [left; by eexists|].
  rewrite bind_lift.
  destruct (Py.popitem mode) as [[k v]|e]; [|left; by eexists].
  rewrite bind_lift.
  destruct (Py.getitem modes k) as [name|e]; [|left; by eexists].
  rewrite bind_lift.
  destruct (Py.getitem urls name) as [template|e]; [|left; by eexists].
  right. eexists. reflexivity.
Qed.

Lemma modes_cases (k name : string) :
  modes !! k = Some name ->
  (k = "phone" /\ name = "get_id_by_phone")
  \/ (k = "phone_hash" /\ name = "get_id_by_phone_hash")
  \/ (k = "email" /\ name = "get_id_by_email")
  \/ (k = "email_hash" /\ name = "get_id_by_email_hash").
Proof.
  unfold modes. rewrite !list_to_map_cons, list_to_map_nil. simpl.
  rewrite !lookup_insert_Some, lookup_empty. intros Hk.
  repeat (destruct Hk as [[<- <-]|[_ Hk]]; [tauto|]). discriminate.
Qed.

Lemma dom_modes :
  dom modes = ({[ "phone"; "phone_hash"; "email"; "email_hash" ]} : gset string).
Proof.
  unfold modes. rewrite !list_to_map_cons, list_to_map_nil. simpl.
  rewrite !dom_insert_L, dom_empty_L. set_solver.
Qed.

(** With one mode that [modes] knows, [get_id] is an endpoint on the URL
    of that mode. *)
Lemma get_id_single (self : Connection) (k name : string) (v : pyobj)
    (w : World) :
  modes !! k = Some name ->
  exists template,
    urls !! name = Some template
    /\ get_id self {[ k := v ]} w
       = endpoint (_session self)
           (get_request self (Py.format template (str v))) IDServerError
           text w.
Proof.
  intros Hk.
  assert (exists template, urls !! name = Some template) as [template Hu].
  { destruct (modes_cases _ _ Hk) as [[_ ->]|[[_ ->]|[[_ ->]|[_ ->]]]];
      by eexists. }
  exists template. split; [done|].
  unfold get_id.
  assert (dom ({[k := v]} : gmap string pyobj) ∖ dom modes = ∅) as ->.
  { rewrite dom_singleton_L. apply subseteq_empty_difference_L.
    apply singleton_subseteq_l. by apply elem_of_dom_2 in Hk. }
  rewrite size_empty. case_decide; [lia|].
  rewrite map_size_singleton. case_decide; [lia|].
  unfold Py.popitem. rewrite map_to_list_singleton, bind_lift.
  unfold Py.getitem. rewrite Hk, bind_lift, Hu.
  reflexivity.
Qed.

(** More than one mode is refused before anything is sent. *)
Lemma get_id_rejects_many_modes (self : Connection)
    (mode : gmap string pyobj) (w : World) :
  (1 < size mode)%nat ->
  exists msg, get_id self mode w = (Raise (IDError msg), w).
Proof.
  intros Hn. unfold get_id.
  case_decide; [by eexists|]. case_decide; [by eexists|lia].
Qed.

(** A mode that [modes] does not know is refused before anything is
    sent. *)
Lemma get_id_rejects_unknown_mode (self : Connection)
    (mode : gmap string pyobj) (k : string) (w : World) :
  k ∈ dom mode ->
  k ∉ ({[ "phone"; "phone_hash"; "email"; "email_hash" ]} : gset string) ->
  exists msg, get_id self mode w = (Raise (IDError msg), w).
Proof.
  rewrite <- dom_modes. intros Hin Hout. unfold get_id.
  case_decide as Hsz; [by eexists|].
  exfalso. apply Hsz.
  assert (size (dom mode ∖ dom modes) <> 0)%nat; [|lia].
  apply size_non_empty_iff. set_solver.
Qed.

(** C2, at the input where the code departs from it: called with no mode,
    [get_id] passes both checks and fails in [popitem] with the builtin
    [KeyError], not with [IDError]; nothing has been sent. *)
Theorem get_id_no_mode_raises_KeyError (self : Connection) (w : World) :
  get_id self ∅ w = (Raise (KeyError "popitem(): dictionary is empty"), w)
  /\ requests_of (get_id self ∅) w = [].
Proof.
  assert (get_id self ∅ w
          = (Raise (KeyError "popitem(): dictionary is empty"), w)) as E
    by reflexivity.
  split; [exact E|]. apply requests_of_fixed. by rewrite E.
Qed.

Lemma session_request_requests (s : ClientSession) (r : Request) (w : World) :
  requests_of (session_request s r) w = [r].
Proof.
  unfold requests_of, events_of, session_request.
  destruct (w_net w r) as [[st t]|]; simpl; by rewrite drop_app_length.
Qed.

Lemma injected_default_params (self : Connection) :
  injected self ∅ (default_params self).
Proof. rewrite <- setdefault_empty. apply setdefault_injected. Qed.

Lemma quiet_get_public_key_200 (response : Response) :
  quiet (text <- text response ;;
         key <- lift (hex_decode text) ;;
         lift (PublicKey key)).
Proof.
  apply quiet_bind; [apply quiet_text|]. intros t.
  apply quiet_bind; [apply quiet_lift|]. intros k. apply quiet_lift.
Qed.

Lemma quiet_get_reception_capabilities_200 (response : Response) :
  quiet (try_except_ValueError
           (text <- text response ;;
            lift (capability_set (Py.split "," text)))
           (fun exc =>
              release response ;;;
              raise (ReceptionCapabilitiesError
                       "Invalid reception capability"))).
Proof.
  apply quiet_try.
  - apply quiet_bind; [apply quiet_text|]. intros t. apply quiet_lift.
  - intros e. apply quiet_bind; [apply quiet_release|].
    intros _. apply quiet_raise.
Qed.

Lemma quiet_get_credits_200 (response : Response) :
  quiet (text <- text response ;; lift (int text)).
Proof. apply quiet_bind; [apply quiet_text|]. intros t. apply quiet_lift. Qed.

(** A GET method that is an endpoint on [get_request] sends the
    credentials. *)
Lemma get_endpoint_sends_injected {A : Type} (self : Connection)
    (m : M A) (url : string) (fam : ServerErrorFamily)
    (k200 : Response -> M A) (w : World) :
  m w = endpoint (_session self) (get_request self url) fam k200 w ->
  (forall response, quiet (k200 response)) ->
  sends_injected self GET ∅ m w.
Proof.
  intros Hm Hk. exists url, (default_params self).
  split; [apply injected_default_params|].
  rewrite (requests_of_ext _ _ _ Hm). by apply endpoint_requests.
Qed.

Lemma _send_sends_injected (self : Connection) (url : string)
    (d : gmap string pyobj) (w : World) :
  sends_injected self POST d (_send self url d) w.
Proof.
  eexists url, _. split; [apply setdefault_injected|].
  rewrite (requests_of_ext _ _ _ (_send_endpoint self url d w)).
  apply endpoint_requests. intros response. apply quiet_text.
Qed.

(** C1. Every GET-based endpoint call and every send sends one request
    whose dictionary holds [from] and [secret]: the connection's [id] and
    [secret] where the caller's dictionary has none, the caller's own
    value where it has one; [_get] and [_send] do so for every dictionary
    they are given, and leave the caller's other items as they are. *)
Theorem credentials_injected_default_if_absent (self : Connection) (w : World) :
  (forall url p, sends_injected self GET (default ∅ p) (_get self url p) w)
  /\ (forall url d, sends_injected self POST d (_send self url d) w)
  /\ (forall i, sends_injected self GET ∅ (get_public_key self i) w)
  /\ (forall k name v,
        modes !! k = Some name ->
        sends_injected self GET ∅ (get_id self {[ k := v ]}) w)
  /\ (forall i, sends_injected self GET ∅ (get_reception_capabilities self i) w)
  /\ sends_injected self GET ∅ (get_credits self) w
  /\ (forall i, sends_injected self GET ∅ (download self i) w)
  /\ (forall d, sends_injected self POST d (send_simple self d) w)
  /\ (forall d, sends_injected self POST d (send_e2e self d) w).
Proof.
  repeat apply conj.
  - intros url p. eexists url, _. split; [apply setdefault_injected|].
    rewrite (requests_of_ext _ _ _ (_get_request self url p w)).
    apply session_request_requests.
  - intros url d. apply _send_sends_injected.
  - intros i. eapply get_endpoint_sends_injected;
      [apply get_public_key_endpoint|apply quiet_get_public_key_200].
  - intros k name v Hk.
    destruct (get_id_single self k name v w Hk) as (template & _ & Hrun).
    eapply get_endpoint_sends_injected; [exact Hrun|apply quiet_text].
  - intros i. eapply get_endpoint_sends_injected;
      [apply get_reception_capabilities_endpoint
      |apply quiet_get_reception_capabilities_200].
  - eapply get_endpoint_sends_injected;
      [apply get_credits_endpoint|apply quiet_get_credits_200].
  - intros i. eapply get_endpoint_sends_injected;
      [apply download_endpoint|intros; apply quiet_ret].
  - intros d. destruct (_send_sends_injected self
                          "https://msgapi.threema.ch/send_simple" d w)
      as (url & q & Hq & Hr).
    exists url, q. split; [exact Hq|].
    by rewrite (requests_of_ext _ _ _ (send_simple_endpoint self d w)).
  - intros d. destruct (_send_sends_injected self
                          "https://msgapi.threema.ch/send_e2e" d w)
      as (url & q & Hq & Hr).
    exists url, q. split; [exact Hq|].
    by rewrite (requests_of_ext _ _ _ (send_e2e_endpoint self d w)).
Qed.

(** An endpoint whose one request is answered with a status other than
    200 raises its family's error. *)
Lemma endpoint_answered {A : Type} (m : M A) (s : ClientSession)
    (r : Request) (fam : ServerErrorFamily) (k200 : Response -> M A)
    (w : World) (st : Z) (t : string) :
  m w = endpoint s r fam k200 w ->
  (forall response, quiet (k200 response)) ->
  st <> 200 ->
  answered_with m w st t ->
  raises_family fam m w st.
Proof.
  intros Hm Hk Hst (r' & Hr & Hnet).
  rewrite (requests_of_ext _ _ _ Hm), endpoint_requests in Hr by done.
  assert (r' = r) as -> by congruence.
  unfold raises_family. rewrite Hm.
  by rewrite (endpoint_non200 _ _ _ _ _ _ _ Hnet Hst).
Qed.

(** C4. Whenever the request of an endpoint method is answered with a
    status other than 200, the method raises the [GatewayServerError] of
    its own family for that status; it returns nothing and passes no
    transport error on. *)
Theorem non_200_raises_family_error
    (self : Connection) (w : World) (st : Z) (t : string) :
  st <> 200 ->
  (forall i, answered_with (get_public_key self i) w st t ->
             raises_family KeyServerError (get_public_key self i) w st)
  /\ (forall mode, answered_with (get_id self mode) w st t ->
                   raises_family IDServerError (get_id self mode) w st)
  /\ (forall i, answered_with (get_reception_capabilities self i) w st t ->
                raises_family ReceptionCapabilitiesServerError
                  (get_reception_capabilities self i) w st)
  /\ (answered_with (get_credits self) w st t ->
      raises_family CreditsServerError (get_credits self) w st)
  /\ (forall d, answered_with (send_simple self d) w st t ->
                raises_family MessageServerError (send_simple self d) w st)
  /\ (forall d, answered_with (send_e2e self d) w st t ->
                raises_family MessageServerError (send_e2e self d) w st)
  /\ (forall blob, answered_with (upload self blob) w st t ->
                   raises_family BlobServerError (upload self blob) w st)
  /\ (forall i, answered_with (download self i) w st t ->
                raises_family BlobServerError (download self i) w st).
Proof.
  intros Hst. repeat apply conj.
  - intros i. eapply endpoint_answered;
      [apply get_public_key_endpoint|apply quiet_get_public_key_200|done].
  - intros mode Ha.
    destruct (get_id_cases self mode w) as [[e He]|[url Hrun]].
    + destruct Ha as (r & Hr & _).
      rewrite requests_of_fixed in Hr by (by rewrite He). discriminate.
    + eapply endpoint_answered; [exact Hrun|apply quiet_text|done|done].
  - intros i. eapply endpoint_answered;
      [apply get_reception_capabilities_endpoint
      |apply quiet_get_reception_capabilities_200|done].
  - eapply endpoint_answered;
      [apply get_credits_endpoint|apply quiet_get_credits_200|done].
  - intros d. eapply endpoint_answered;
      [apply _send_endpoint|apply quiet_text|done].
  - intros d. eapply endpoint_answered;
      [apply _send_endpoint|apply quiet_text|done].
  - intros blob. eapply endpoint_answered;
      [apply _upload_endpoint|apply quiet_text|done].
  - intros i. eapply endpoint_answered;
      [apply download_endpoint|intros; apply quiet_ret|done].
Qed.

(** C7. [upload] sends one POST to the upload URL whose query parameters
    are exactly [from] and [secret], the connection's own, and whose body
    is the single field [blob] holding the payload, credentials not among
    the body's fields; answered with 200, it returns the body text of the
    response as it is. *)
Theorem upload_posts_blob_with_query_credentials
    (self : Connection) (blob : pyobj) (w : World) :
  let r := {| method := POST;
              url := "https://msgapi.threema.ch/upload_blob";
              params := Some (default_params self);
              data := Some {[ "blob" := blob ]} |} in
  requests_of (upload self blob) w = [r]
  /\ default_params self !! "from" = Some (id self)
  /\ default_params self !! "secret" = Some (secret self)
  /\ dom (default_params self) = ({[ "from"; "secret" ]} : gset string)
  /\ dom ({[ "blob" := blob ]} : gmap string pyobj)
     = ({[ "blob" ]} : gset string)
  /\ (forall t, w_net w r = Some (200, t) ->
                fst (upload self blob w) = Ok t).
Proof.
  intros r. repeat apply conj.
  - rewrite (requests_of_ext _ _ _ (upload_endpoint self blob w)).
    rewrite (requests_of_ext _ _ _ (_upload_endpoint self _ blob w)).
    apply endpoint_requests. intros response. apply quiet_text.
  - reflexivity.
  - reflexivity.
  - unfold default_params. rewrite !dom_insert_L, dom_empty_L. set_solver.
  - apply dom_singleton_L.
  - intros t Hr.
    rewrite upload_endpoint, _upload_endpoint.
    by rewrite (endpoint_200 _ _ _ _ _ _ Hr).
Qed.

Lemma ReceptionCapability_call_Ok (value : string) (c : ReceptionCapability) :
  ReceptionCapability_call value = Ok c -> value = ReceptionCapability_value c.
Proof.
  unfold ReceptionCapability_call.
  destruct (find _ _) as [c'|] eqn:E; [|discriminate].
  intros [= ->]. apply find_some in E as [_ E].
  symmetry. by apply String.eqb_eq.
Qed.

Lemma ReceptionCapability_call_value (c : ReceptionCapability) :
  ReceptionCapability_call (ReceptionCapability_value c) = Ok c.
Proof. by destruct c. Qed.

Lemma ReceptionCapability_call_Raise (value : string) (e : exn) :
  ReceptionCapability_call value = Raise e -> e = ValueError value.
Proof.
  unfold ReceptionCapability_call. destruct (find _ _); congruence.
Qed.

Lemma capability_set_Ok (pieces : list string) :
  (forall piece, piece ∈ pieces -> exists c, names_capability piece c) ->
  exists caps,
    capability_set pieces = Ok caps
    /\ forall c, c ∈ caps
                 <-> exists piece, piece ∈ pieces /\ names_capability piece c.
Proof.
  induction pieces as [|piece rest IH]; intros Hall.
  - exists ∅. split; [done|]. intros c. split; [set_solver|].
    intros (piece & Hin & _). by apply elem_of_nil in Hin.
  - destruct (Hall piece) as [c Hc]; [left|].
    destruct IH as (caps & Hrest & Hcaps).
    { intros p Hp. apply Hall. by right. }
    exists ({[c]} ∪ caps). simpl. unfold names_capability in Hc.
    rewrite Hc, ReceptionCapability_call_value, Hrest. split; [done|].
    intros c'. rewrite elem_of_union, elem_of_singleton, Hcaps. split.
    + intros [->|(p & Hp & Hn)].
      * exists piece. split; [left|done].
      * exists p. split; [by right|done].
    + intros (p & Hp & Hn). apply elem_of_cons in Hp as [->|Hp].
      * left. unfold names_capability in Hn. rewrite Hc in Hn.
        by destruct c, c'.
      * right. by exists p.
Qed.

Lemma capability_set_Raise (pieces : list string) :
  (exists piece, piece ∈ pieces /\ forall c, ~ names_capability piece c) ->
  exists value, capability_set pieces = Raise (ValueError value).
Proof.
  induction pieces as [|piece rest IH]; intros (bad & Hin & Hbad).
  - by apply elem_of_nil in Hin.
  - simpl.
    destruct (ReceptionCapability_call (Py.strip piece)) as [c|e] eqn:E.
    + apply ReceptionCapability_call_Ok in E.
      apply elem_of_cons in Hin as [->|Hin]; [by destruct (Hbad c)|].
      destruct IH as [value ->]; [by exists bad|]. by eexists.
    + apply ReceptionCapability_call_Raise in E as ->. by eexists.
Qed.

(** C5. When the capabilities request is answered with 200: if every
    comma-separated piece of the body, stripped, is the value of a
    capability, the method returns the set of exactly those capabilities;
    if some piece is not, the method reads the body, releases the response
    and then raises [ReceptionCapabilitiesError]. *)
Theorem capabilities_parsed_or_rejected
    (self : Connection) (i : pyobj) (w : World) (t : string) :
  answered_with (get_reception_capabilities self i) w 200 t ->
  ((forall piece, piece ∈ Py.split "," t ->
                  exists c, names_capability piece c) ->
   exists caps,
     fst (get_reception_capabilities self i w) = Ok caps
     /\ forall c, c ∈ caps
                  <-> exists piece,
                        piece ∈ Py.split "," t /\ names_capability piece c)
  /\ ((exists piece, piece ∈ Py.split "," t
                     /\ forall c, ~ names_capability piece c) ->
      fst (get_reception_capabilities self i w)
      = Raise (ReceptionCapabilitiesError "Invalid reception capability")
      /\ exists r h,
           events_of (get_reception_capabilities self i) w
           = [EvRequest (_session self) r; EvText h; EvRelease h]).
Proof.
  intros (r & Hr & Hnet).
  rewrite (requests_of_ext _ _ _
             (get_reception_capabilities_endpoint self i w)) in Hr.
  rewrite endpoint_requests in Hr
    by apply quiet_get_reception_capabilities_200.
  assert (r = get_request self
                (Py.format "https://msgapi.threema.ch/capabilities/{}"
                   (str i))) as -> by congruence.
  pose proof (fun k200 =>
                endpoint_200 (A := gset ReceptionCapability) (_session self) _
                  ReceptionCapabilitiesServerError k200 _ _ Hnet) as Hrun.
  split.
  - intros Hall. destruct (capability_set_Ok _ Hall) as (caps & Hset & Hcaps).
    exists caps. split; [|exact Hcaps].
    rewrite get_reception_capabilities_endpoint, Hrun.
    unfold try_except_ValueError, bind, text, lift. simpl. by rewrite Hset.
  - intros Hbad. destruct (capability_set_Raise _ Hbad) as (value & Hset).
    assert (get_reception_capabilities self i w
            = (Raise (ReceptionCapabilitiesError
                        "Invalid reception capability"),
               log (EvRelease (length (w_trace w)))
                 (log (EvText (length (w_trace w)))
                    (log (EvRequest (_session self)
                            (get_request self
                               (Py.format
                                  "https://msgapi.threema.ch/capabilities/{}"
                                  (str i)))) w)))) as E.
    { rewrite get_reception_capabilities_endpoint, Hrun.
      unfold try_except_ValueError, bind, text, lift. simpl.
      by rewrite Hset. }
    split; [by rewrite E|].
    eexists _, _. apply events_of_log. rewrite E. simpl.
    by rewrite <- !app_assoc.
Qed.

End Dispatcher.

(** ** The theorems at concrete inputs *)

Example capabilities_text_image_file :
  fst (get_reception_capabilities (H := demo_collaborators) demo_connection
         (PyStr "ECHOECHO") (demo_world 200 "text,image,file"))
  = Ok {[ text_; image; file ]}.
Proof. vm_compute. reflexivity. Qed.

Example capabilities_deduplicated_and_stripped :
  fst (get_reception_capabilities (H := demo_collaborators) demo_connection
         (PyStr "ECHOECHO") (demo_world 200 "text, image,text"))
  = Ok {[ text_; image ]}.
Proof. vm_compute. reflexivity. Qed.

Example capabilities_text_bogus :
  get_reception_capabilities (H := demo_collaborators) demo_connection
    (PyStr "ECHOECHO") (demo_world 200 "text,bogus")
  = (Raise (ReceptionCapabilitiesError "Invalid reception capability"),
     log (EvRelease 0)
       (log (EvText 0)
          (log (EvRequest (_session demo_connection)
                  (get_request demo_connection
                     "https://msgapi.threema.ch/capabilities/ECHOECHO"))
             (demo_world 200 "text,bogus")))).
Proof. reflexivity. Qed.

Example get_id_two_modes :
  fst (get_id (H := demo_collaborators) demo_connection
         {[ "phone" := PyStr "41791234567"; "email" := PyStr "a@b.ch" ]}
         (demo_world 200 "ECHOECHO"))
  = Raise (IDError "Use (only) one of the possible modes to get a Threema ID").
Proof. vm_compute. reflexivity. Qed.

Example send_simple_keeps_supplied_from :
  requests_of (send_simple demo_connection
                 {[ "from" := PyStr "*OTHERID"; "text" := PyStr "hi" ]})
    (demo_world 200 "msgid")
  = [{| method := POST; url := "https://msgapi.threema.ch/send_simple";
        params := None;
        data := Some {[ "from" := PyStr "*OTHERID"; "text" := PyStr "hi";
                        "secret" := PyStr "hunter2" ]} |}].
Proof. vm_compute. reflexivity. Qed.

Example init_with_fallback_fingerprint :
  fst (__init__ (H := demo_collaborators) (PyStr "*MYGATEW") (PyStr "hunter2")
         PyNone None None true (demo_world 200 ""))
  = Ok {| _session := pinned_session (Some fingerprint); _key := PyNone;
          _key_file := None; id := PyStr "*MYGATEW";
          secret := PyStr "hunter2" |}.
Proof. reflexivity. Qed.

Lemma credentials_injected_witness :
  sends_injected demo_connection GET ∅
    (get_id (H := demo_collaborators) demo_connection
       {[ "phone" := PyStr "41791234567" ]})
    (demo_world 200 "ECHOECHO").
Proof.
  destruct (credentials_injected_default_if_absent (H := demo_collaborators)
              demo_connection (demo_world 200 "ECHOECHO"))
    as (_ & _ & _ & Hid & _).
  apply (Hid "phone" "get_id_by_phone"). reflexivity.
Defined.

Lemma non_200_witness :
  raises_family CreditsServerError
    (get_credits (H := demo_collaborators) demo_connection)
    (demo_world 404 "") 404.
Proof.
  destruct (non_200_raises_family_error (H := demo_collaborators)
              demo_connection (demo_world 404 "") 404 "")
    as (_ & _ & _ & Hcredits & _); [lia|].
  apply Hcredits. eexists. split; reflexivity.
Defined.

Lemma capabilities_witness :
  (exists caps,
     fst (get_reception_capabilities (H := demo_collaborators) demo_connection
            (PyStr "ECHOECHO") (demo_world 200 "text,image,file"))
     = Ok caps
     /\ forall c, c ∈ caps
                  <-> exists piece,
                        piece ∈ Py.split "," "text,image,file"
                        /\ names_capability piece c)
  /\ fst (get_reception_capabilities (H := demo_collaborators) demo_connection
            (PyStr "ECHOECHO") (demo_world 200 "text,bogus"))
     = Raise (ReceptionCapabilitiesError "Invalid reception capability").
Proof.
  split.
  - destruct (capabilities_parsed_or_rejected (H := demo_collaborators)
                demo_connection (PyStr "ECHOECHO")
                (demo_world 200 "text,image,file") "text,image,file")
      as [Hok _].
    { eexists. split; reflexivity. }
    apply Hok. intros piece Hin. simpl in Hin.
    apply elem_of_cons in Hin as [->|Hin]; [by exists text_|].
    apply elem_of_cons in Hin as [->|Hin]; [by exists image|].
    apply elem_of_cons in Hin as [->|Hin]; [by exists file|].
    by apply elem_of_nil in Hin.
  - destruct (capabilities_parsed_or_rejected (H := demo_collaborators)
                demo_connection (PyStr "ECHOECHO")
                (demo_world 200 "text,bogus") "text,bogus")
      as [_ Hbad].
    { eexists. split; reflexivity. }
    apply Hbad. exists "bogus". split.
    + simpl. right. left.
    + intros []; discriminate.
Defined.

Lemma upload_witness :
  fst (upload demo_connection (PyBytes [x00; xff])
         (demo_world 200 "0123456789abcdef"))
  = Ok "0123456789abcdef".
Proof.
  apply (upload_posts_blob_with_query_credentials
           demo_connection (PyBytes [x00; xff])
           (demo_world 200 "0123456789abcdef")).
  reflexivity.
Defined.

(** ** More on the dispatcher: the requests sent and the answers used *)

Section Answers.

Context `{Collaborators}.

Lemma string_append_nil (s : string) : (s ++ "")%string = s.
Proof.
  induction s as [|c s IH]; [reflexivity|].
  change (String c (s ++ "") = String c s). by rewrite IH.
Qed.

Lemma endpoint_answered_200 {A : Type} (m : M A) (s : ClientSession)
    (r : Request) (fam : ServerErrorFamily) (k200 : Response -> M A)
    (w : World) (t : string) :
  m w = endpoint s r fam k200 w ->
  (forall response, quiet (k200 response)) ->
  answered_with m w 200 t ->
  m w = k200 {| handle := length (w_trace w); status := 200; body := t |}
             (log (EvRequest s r) w).
Proof.
  intros Hm Hk (r' & Hr & Hnet).
  rewrite (requests_of_ext _ _ _ Hm), endpoint_requests in Hr by done.
  assert (r' = r) as -> by congruence.
  rewrite Hm. by apply endpoint_200.
Qed.

Lemma endpoint_unanswered {A : Type} (m : M A) (s : ClientSession)
    (r : Request) (fam : ServerErrorFamily) (k200 : Response -> M A)
    (w : World) :
  m w = endpoint s r fam k200 w ->
  (forall response, quiet (k200 response)) ->
  unanswered m w ->
  m w = (Raise ClientError, log (EvRequest s r) w).
Proof.
  intros Hm Hk (r' & Hr & Hnet).
  rewrite (requests_of_ext _ _ _ Hm), endpoint_requests in Hr by done.
  assert (r' = r) as -> by congruence.
  rewrite Hm. unfold endpoint. by rewrite endpoint_run, Hnet.
Qed.

(** X1. The methods that take an identifier send a GET to the fixed path
    with the text of the identifier appended as it is, and [get_credits]
    a GET to the credits URL; the query holds the credentials and nothing
    else. *)
Theorem lookup_requests (self : Connection) (i : pyobj) (w : World) :
  requests_of (get_public_key self i) w
  = [get_request self ("https://msgapi.threema.ch/pubkeys/" ++ str i)]
  /\ requests_of (get_reception_capabilities self i) w
     = [get_request self ("https://msgapi.threema.ch/capabilities/" ++ str i)]
  /\ requests_of (download self i) w
     = [get_request self ("https://msgapi.threema.ch/blobs/" ++ str i)]
  /\ requests_of (get_credits self) w
     = [get_request self "https://msgapi.threema.ch/credits"]
  /\ dom (default_params self) = ({[ "from"; "secret" ]} : gset string).
Proof.
  repeat apply conj.
  - rewrite (requests_of_ext _ _ _ (get_public_key_endpoint self i w)).
    rewrite endpoint_requests by apply quiet_get_public_key_200.
    simpl. by rewrite string_append_nil.
  - rewrite (requests_of_ext _ _ _
               (get_reception_capabilities_endpoint self i w)).
    rewrite endpoint_requests by apply quiet_get_reception_capabilities_200.
    simpl. by rewrite string_append_nil.
  - rewrite (requests_of_ext _ _ _ (download_endpoint self i w)).
    rewrite endpoint_requests by (intros; apply quiet_ret).
    simpl. by rewrite string_append_nil.
  - rewrite (requests_of_ext _ _ _ (get_credits_endpoint self w)).
    by rewrite endpoint_requests by apply quiet_get_credits_200.
  - unfold default_params. rewrite !dom_insert_L, dom_empty_L. set_solver.
Qed.

Lemma known_mode_cases (k : string) :
  k ∈ ({[ "phone"; "phone_hash"; "email"; "email_hash" ]} : gset string) ->
  k = "phone" \/ k = "phone_hash" \/ k = "email" \/ k = "email_hash".
Proof. rewrite !elem_of_union, !elem_of_singleton. tauto. Qed.

(** X2. Called with one mode out of [phone], [phone_hash], [email] and
    [email_hash], [get_id] sends one GET to the lookup path of that mode
    with the text of the value appended as it is. *)
Theorem get_id_request (self : Connection) (k : string) (v : pyobj)
    (w : World) :
  k ∈ ({[ "phone"; "phone_hash"; "email"; "email_hash" ]} : gset string) ->
  requests_of (get_id self {[ k := v ]}) w
  = [get_request self
       ("https://msgapi.threema.ch/lookup/" ++ k ++ "/" ++ str v)].
Proof.
  intros Hk.
  assert (exists name,
            modes !! k = Some name
            /\ urls !! name
               = Some ("https://msgapi.threema.ch/lookup/" ++ k ++ "/{}"))
    as (name & Hname & Hurl).
  { destruct (known_mode_cases k Hk) as [-> | [-> | [-> | ->]]];
      eexists; split; reflexivity. }
  destruct (get_id_single self k name v w Hname) as (template & Hu & Hrun).
  rewrite Hurl in Hu. injection Hu as <-.
  rewrite (requests_of_ext _ _ _ Hrun).
  rewrite endpoint_requests by apply quiet_text.
  do 2 f_equal.
  destruct (known_mode_cases k Hk) as [-> | [-> | [-> | ->]]];
    simpl; by rewrite string_append_nil.
Qed.

(** X3. [get_id] refuses, before it sends anything, every call with a
    mode name it does not know, with the unknown-mode message whatever
    the number of modes, and every call with two or more known modes,
    with the use-only-one message. *)
Theorem get_id_rejections (self : Connection) (mode : gmap string pyobj)
    (w : World) :
  (~ dom mode ⊆ ({[ "phone"; "phone_hash"; "email"; "email_hash" ]}
                   : gset string) ->
   get_id self mode w
   = (Raise (IDError ("Unknown mode selected: " ++ str_of_set (dom mode))),
      w))
  /\ (dom mode ⊆ ({[ "phone"; "phone_hash"; "email"; "email_hash" ]}
                   : gset string) ->
      (1 < size mode)%nat ->
      get_id self mode w
      = (Raise (IDError
                  "Use (only) one of the possible modes to get a Threema ID"),
         w)).
Proof.
  rewrite <- dom_modes. split.
  - intros Hsub. unfold get_id. case_decide as Hsz.
    + unfold raise. do 3 f_equal. simpl. by rewrite string_append_nil.
    + exfalso. apply Hsub. intros x Hx.
      destruct (decide (x ∈ dom modes)) as [|Hout]; [done|].
      exfalso. apply Hsz.
      assert (size (dom mode ∖ dom modes) <> 0)%nat; [|lia].
      apply size_non_empty_iff, (non_empty_inhabited x).
      by apply elem_of_difference.
  - intros Hsub Hmany. unfold get_id.
    rewrite (subseteq_empty_difference_L _ _ Hsub), size_empty.
    case_decide; [lia|]. case_decide; [done|lia].
Qed.

Lemma setdefault_dom {V : Type} (d : gmap string V) (k : string) (v : V) :
  dom (Py.setdefault d k v) = {[ k ]} ∪ dom d.
Proof.
  unfold Py.setdefault. destruct (d !! k) as [x|] eqn:E.
  - apply elem_of_dom_2 in E. symmetry. apply subseteq_union_1_L.
    by apply singleton_subseteq_l.
  - apply dom_insert_L.
Qed.

(** X4. The dictionary [_get] and [_send] send has the keys of the
    caller's dictionary, [from] and [secret], and no other key. *)
Theorem injection_adds_only_credentials (self : Connection) (url : string)
    (w : World) :
  (forall p, exists q,
     requests_of (_get self url p) w
     = [{| method := GET; url := url; params := Some q; data := None |}]
     /\ dom q = dom (default ∅ p) ∪ {[ "from"; "secret" ]})
  /\ (forall d, exists q,
        requests_of (_send self url d) w
        = [{| method := POST; url := url; params := None; data := Some q |}]
        /\ dom q = dom d ∪ {[ "from"; "secret" ]}).
Proof.
  split.
  - intros p. eexists. split.
    + rewrite (requests_of_ext _ _ _ (_get_request self url p w)).
      apply session_request_requests.
    + rewrite !setdefault_dom. apply set_eq. intros x.
      rewrite !elem_of_union, !elem_of_singleton. tauto.
  - intros d. eexists. split.
    + rewrite (requests_of_ext _ _ _ (_send_endpoint self url d w)).
      apply endpoint_requests. intros response. apply quiet_text.
    + rewrite !setdefault_dom. apply set_eq. intros x.
      rewrite !elem_of_union, !elem_of_singleton. tauto.
Qed.

Lemma answered_not_fixed {A : Type} (m : M A) (w : World) (st : Z)
    (t : string) (e : exn) :
  m w = (Raise e, w) -> ~ answered_with m w st t.
Proof.
  intros He (r & Hr & _).
  rewrite requests_of_fixed in Hr by (by rewrite He). discriminate.
Qed.

Lemma endpoint_returns_text (self : Connection) (m : M string) (r : Request)
    (fam : ServerErrorFamily) (w : World) (t : string) :
  m w = endpoint (_session self) r fam text w ->
  answered_with m w 200 t ->
  returns_text_read self m w t.
Proof.
  intros Hm Ha. exists r.
  by rewrite (endpoint_answered_200 _ _ _ _ _ _ _ Hm quiet_text Ha).
Qed.

(** X5. Answered with 200, [get_id], [send_simple] and [send_e2e] return
    the body text of the response as it is, having read the body once and
    released nothing. *)
Theorem text_methods_return_body (self : Connection) (w : World) (t : string) :
  (forall mode, answered_with (get_id self mode) w 200 t ->
                returns_text_read self (get_id self mode) w t)
  /\ (forall d, answered_with (send_simple self d) w 200 t ->
                returns_text_read self (send_simple self d) w t)
  /\ (forall d, answered_with (send_e2e self d) w 200 t ->
                returns_text_read self (send_e2e self d) w t).
Proof.
  repeat apply conj.
  - intros mode Ha.
    destruct (get_id_cases self mode w) as [[e He]|[url Hrun]].
    + by destruct (answered_not_fixed _ _ _ _ _ He Ha).
    + eapply endpoint_returns_text; [exact Hrun|done].
  - intros d Ha. eapply endpoint_returns_text; [apply _send_endpoint|done].
  - intros d Ha. eapply endpoint_returns_text; [apply _send_endpoint|done].
Qed.

(** X6. Answered with 200, [download] returns the response itself, with
    that status and body, and has neither read nor released it: the
    request is the only event. *)
Theorem download_returns_live_response (self : Connection) (i : pyobj)
    (w : World) (t : string) :
  answered_with (download self i) w 200 t ->
  fst (download self i w)
  = Ok {| handle := length (w_trace w); status := 200; body := t |}
  /\ events_of (download self i) w
     = [EvRequest (_session self)
          (get_request self ("https://msgapi.threema.ch/blobs/" ++ str i))].
Proof.
  intros Ha.
  pose proof (endpoint_answered_200 _ _ _ _ _ _ _
                (download_endpoint self i w) (fun r => quiet_ret r) Ha) as E.
  split; [by rewrite E|].
  apply events_of_log. rewrite E. simpl.
  by rewrite string_append_nil.
Qed.

(** X7. Answered with 200, [get_credits] returns what [int] makes of the
    body text, and what [int] raises on it goes to the caller as it is;
    the body has been read and nothing released. *)
Theorem get_credits_parses_body (self : Connection) (w : World) (t : string) :
  answered_with (get_credits self) w 200 t ->
  get_credits self w
  = (int t,
     log (EvText (length (w_trace w)))
       (log (EvRequest (_session self)
               (get_request self "https://msgapi.threema.ch/credits")) w)).
Proof.
  intros Ha.
  by rewrite (endpoint_answered_200 _ _ _ _ _ _ _
                (get_credits_endpoint self w) quiet_get_credits_200 Ha).
Qed.

(** X8. Answered with 200, [get_public_key] returns the public key made
    from the hex-decoded body text; a failure of the hex decoder or of the
    key class goes to the caller as it is, and the key class is not called
    when decoding failed. *)
Theorem get_public_key_decodes_body (self : Connection) (i : pyobj)
    (w : World) (t : string) :
  answered_with (get_public_key self i) w 200 t ->
  fst (get_public_key self i w)
  = match hex_decode t with
    | Ok raw => PublicKey raw
    | Raise e => Raise e
    end.
Proof.
  intros Ha.
  rewrite (endpoint_answered_200 _ _ _ _ _ _ _
             (get_public_key_endpoint self i w) quiet_get_public_key_200 Ha).
  unfold bind, text, lift. simpl. by destruct (hex_decode t).
Qed.

Lemma unanswered_not_fixed {A : Type} (m : M A) (w : World) (e : exn) :
  m w = (Raise e, w) -> ~ unanswered m w.
Proof.
  intros He (r & Hr & _).
  rewrite requests_of_fixed in Hr by (by rewrite He). discriminate.
Qed.

(** X9. When the transport gives no answer to the request of an endpoint
    method, the method raises the transport's error as it is; it sends no
    second request and reads or releases nothing. *)
Theorem transport_failure_propagates (self : Connection) (w : World) :
  (forall i, unanswered (get_public_key self i) w ->
             fails_unanswered self (get_public_key self i) w)
  /\ (forall mode, unanswered (get_id self mode) w ->
                   fails_unanswered self (get_id self mode) w)
  /\ (forall i, unanswered (get_reception_capabilities self i) w ->
                fails_unanswered self (get_reception_capabilities self i) w)
  /\ (unanswered (get_credits self) w ->
      fails_unanswered self (get_credits self) w)
  /\ (forall d, unanswered (send_simple self d) w ->
                fails_unanswered self (send_simple self d) w)
  /\ (forall d, unanswered (send_e2e self d) w ->
                fails_unanswered self (send_e2e self d) w)
  /\ (forall blob, unanswered (upload self blob) w ->
                   fails_unanswered self (upload self blob) w)
  /\ (forall i, unanswered (download self i) w ->
                fails_unanswered self (download self i) w).
Proof.
  repeat apply conj.
  - intros i Hu. eexists. eapply endpoint_unanswered;
      [apply get_public_key_endpoint|apply quiet_get_public_key_200|done].
  - intros mode Hu.
    destruct (get_id_cases self mode w) as [[e He]|[url Hrun]].
    + by destruct (unanswered_not_fixed _ _ _ He Hu).
    + eexists. eapply endpoint_unanswered; [exact Hrun|apply quiet_text|done].
  - intros i Hu. eexists. eapply endpoint_unanswered;
      [apply get_reception_capabilities_endpoint
      |apply quiet_get_reception_capabilities_200|done].
  - intros Hu. eexists. eapply endpoint_unanswered;
      [apply get_credits_endpoint|apply quiet_get_credits_200|done].
  - intros d Hu. eexists. eapply endpoint_unanswered;
      [apply _send_endpoint|apply quiet_text|done].
  - intros d Hu. eexists. eapply endpoint_unanswered;
      [apply _send_endpoint|apply quiet_text|done].
  - intros blob Hu. eexists. eapply endpoint_unanswered;
      [apply _upload_endpoint|apply quiet_text|done].
  - intros i Hu. eexists. eapply endpoint_unanswered;
      [apply download_endpoint|intros; apply quiet_ret|done].
Qed.

Lemma split_nonempty (sep : ascii) (s : string) : Py.split sep s <> [].
Proof.
  destruct s as [|c s]; simpl; [done|].
  destruct (Ascii.eqb c sep); [done|]. by destruct (Py.split sep s).
Qed.

Lemma capability_set_nonempty (pieces : list string)
    (caps : gset ReceptionCapability) :
  pieces <> [] -> capability_set pieces = Ok caps -> caps <> ∅.
Proof.
  destruct pieces as [|piece rest]; [done|]. intros _. simpl.
  destruct (ReceptionCapability_call _) as [c|]; [|discriminate].
  destruct (capability_set rest) as [caps'|]; [|discriminate].
  intros [= <-]. apply (non_empty_inhabited_L c).
  apply elem_of_union_l. by apply elem_of_singleton.
Qed.

(** X10. [get_reception_capabilities] never returns the empty set: a body
    without any capability, the empty body among them, makes it raise. *)
Theorem capabilities_never_empty (self : Connection) (i : pyobj) (w : World)
    (caps : gset ReceptionCapability) :
  fst (get_reception_capabilities self i w) = Ok caps -> caps <> ∅.
Proof.
  rewrite get_reception_capabilities_endpoint. unfold endpoint.
  rewrite endpoint_run.
  destruct (w_net w _) as [[st t]|]; [|discriminate].
  destruct (st =? 200); [|discriminate].
  unfold try_except_ValueError, bind, text, lift. simpl.
  destruct (capability_set (Py.split "," t)) as [caps'|e] eqn:E; simpl.
  - intros [= <-]. eapply capability_set_nonempty; [|exact E].
    apply split_nonempty.
  - destruct (is_ValueError e); discriminate.
Qed.

End Answers.

(** ** More on the key provider and the constructor *)

Section KeyMaterial.

Context `{Collaborators}.

(** X11. Assigning [key] changes the stored key and nothing else: the
    world, the session, [id], [secret] and the recorded key-file path stay
    as they were, so [key_file] goes on naming the file last assigned. *)
Theorem key_setter_keeps_rest (self self' : Connection) (k : pyobj)
    (w w' : World) :
  key_setter self k w = (Ok self', w') ->
  w' = w
  /\ _session self' = _session self
  /\ id self' = id self
  /\ secret self' = secret self
  /\ key_file self' w' = (Ok (_key_file self), w').
Proof.
  assert (forall k', (Ok (with_key self k'), w) = (Ok self', w') ->
                     w' = w /\ _session self' = _session self
                     /\ id self' = id self /\ secret self' = secret self
                     /\ key_file self' w' = (Ok (_key_file self), w')) as Hk.
  { intros k' [= <- <-]. repeat split. }
  destruct k; try apply Hk.
  rewrite key_setter_text. destruct (Key_decode s private); [apply Hk|].
  discriminate.
Qed.

(** X12. After [key_file] was assigned, reading it returns what was
    assigned, and the session, [id] and [secret] are as before.  Assigned
    a path, the file was opened and the stored key is the one decoded
    from its stripped first line. *)
Theorem key_file_round_trip (self self' : Connection) (kf : option string)
    (w w' : World) :
  key_file_setter self kf w = (Ok self', w') ->
  key_file self' w' = (Ok kf, w')
  /\ _session self' = _session self
  /\ id self' = id self
  /\ secret self' = secret self
  /\ match kf with
     | None => _key self' = _key self /\ w' = w
     | Some path =>
         w' = log (EvOpen path) w
         /\ exists contents,
              w_files w !! path = Some contents
              /\ Key_decode (Py.strip (Py.readline contents)) private
                 = Ok (_key self')
     end.
Proof.
  destruct kf as [path|].
  - rewrite key_file_setter_path.
    destruct (w_files w !! path) as [contents|] eqn:Hf; [|discriminate].
    destruct (Key_decode _ private) as [k|] eqn:Hk; [|discriminate].
    intros [= <- <-]. repeat split. by exists contents.
  - rewrite key_file_setter_None. intros [= <- <-]. repeat split.
Qed.

Lemma readline_first_line (line rest : string) (c : ascii) :
  no_line_end line = true ->
  c = ascii_of_N 10 \/ c = ascii_of_N 13 ->
  Py.readline (line ++ String c rest) = (line ++ String (ascii_of_N 10) "")%string.
Proof.
  intros Hline Hc. induction line as [|a line IH].
  - destruct Hc as [-> | ->]; reflexivity.
  - simpl in Hline. apply andb_prop in Hline as [Ha Hline].
    change (Py.readline (String a (line ++ String c rest))
            = String a (line ++ String (ascii_of_N 10) "")).
    simpl. apply negb_true_iff in Ha. rewrite Ha. by rewrite IH.
Qed.

Lemma readline_single_line (line : string) :
  no_line_end line = true -> Py.readline line = line.
Proof.
  induction line as [|a line IH]; [done|]. simpl.
  intros [Ha Hline]%andb_prop. apply negb_true_iff in Ha. rewrite Ha.
  by rewrite IH.
Qed.

Lemma rstrip_app_space (s : string) (c : ascii) :
  Py.isspace c = true -> Py.rstrip (s ++ String c "") = Py.rstrip s.
Proof.
  intros Hc. induction s as [|a s IH].
  - change (Py.rstrip (String c "") = ""). simpl. by rewrite Hc.
  - change (Py.rstrip (String a (s ++ String c "")) = Py.rstrip (String a s)).
    simpl. by rewrite IH.
Qed.

Lemma strip_app_space (s : string) (c : ascii) :
  Py.isspace c = true -> Py.strip (s ++ String c "") = Py.strip s.
Proof.
  intros Hc. unfold Py.strip. induction s as [|a s IH].
  - change (Py.rstrip (Py.lstrip (String c "")) = ""). simpl. by rewrite Hc.
  - change (Py.rstrip (Py.lstrip (String a (s ++ String c "")))
            = Py.rstrip (Py.lstrip (String a s))).
    simpl. destruct (Py.isspace a); [exact IH|].
    by apply (rstrip_app_space (String a s)).
Qed.

(** X13. Of a key file only the first line counts: when the file holds a
    line without a line end, alone or followed by a line feed or carriage
    return and anything whatever after it, assigning [key_file] decodes
    the stripped line, stores the key and records the path, or raises
    what the decoder raises. *)
Theorem key_file_first_line_only (self : Connection) (path line contents : string)
    (w : World) :
  no_line_end line = true ->
  w_files w !! path = Some contents ->
  (contents = line
   \/ exists c rest,
        (c = ascii_of_N 10 \/ c = ascii_of_N 13)
        /\ contents = (line ++ String c rest)%string) ->
  key_file_setter self (Some path) w
  = match Key_decode (Py.strip line) private with
    | Ok k =>
        (Ok (with_key_file (with_key self k) (Some path)), log (EvOpen path) w)
    | Raise e => (Raise e, log (EvOpen path) w)
    end.
Proof.
  intros Hline Hf Hc. rewrite key_file_setter_path, Hf.
  assert (Py.strip (Py.readline contents) = Py.strip line) as ->; [|done].
  destruct Hc as [-> | (c & rest & Hc & ->)].
  - by rewrite readline_single_line.
  - rewrite (readline_first_line _ _ _ Hline Hc). by apply strip_app_space.
Qed.

(** X14. Given a text key the decoder refuses, the constructor raises the
    decoder's error; by then the session has been created, and the key
    file, if one was named, is not opened. *)
Theorem init_text_key_refused id secret (s : string) (kf : option string)
    fp vf (w : World) (e : exn) :
  Key_decode s private = Raise e ->
  __init__ id secret (PyStr s) kf fp vf w
  = (Raise e,
     log (EvSession (pinned_session (connector_fingerprint_of fp vf))) w).
Proof.
  intros He. rewrite init_unfold. simpl.
  by rewrite key_setter_text, He.
Qed.

(** X15. Given a key that is no text and the path of a file that is not
    there, the constructor raises [OSError] for that path; by then the
    session has been created. *)
Theorem init_key_file_missing id secret (key : pyobj) (path : string)
    fp vf (w : World) :
  isinstance_str key = false ->
  w_files w !! path = None ->
  __init__ id secret key (Some path) fp vf w
  = (Raise (OSError path),
     log (EvSession (pinned_session (connector_fingerprint_of fp vf))) w).
Proof.
  intros Hk Hf. rewrite init_unfold. simpl.
  rewrite key_setter_value by done.
  rewrite key_file_setter_path. simpl. by rewrite Hf.
Qed.


(** X18. Constructed with a text key the decoder accepts and no key
    file, the connection holds the decoded key, not the text, and reading
    [key] returns it. *)
Theorem init_text_key_round_trip id secret (s : string) (k : pyobj) fp vf
    (w : World) :
  Key_decode s private = Ok k ->
  is_None k = false ->
  exists self w',
    __init__ id secret (PyStr s) None fp vf w = (Ok self, w')
    /\ _key self = k
    /\ key self w' = (Ok k, w').
Proof.
  intros Hk Hnone. eexists _, _. split; [|split].
  - rewrite init_unfold. simpl. rewrite key_setter_text, Hk.
    apply key_file_setter_None.
  - reflexivity.
  - by apply key_set.
Qed.

Lemma only_on_endpoint {A : Type} (m : M A) (s : ClientSession) (r : Request)
    (fam : ServerErrorFamily) (k200 : Response -> M A) (w : World) :
  m w = endpoint s r fam k200 w ->
  (forall response, quiet (k200 response)) ->
  only_on s (events_of m w).
Proof.
  intros Hm Hk s' r' Hin.
  destruct (endpoint_events s r fam k200 w Hk) as (evs & Hev & Hn).
  unfold events_of in *. rewrite Hm, Hev in Hin.
  apply elem_of_cons in Hin as [[= -> _]|Hin]; [done|].
  exfalso. unfold no_request in Hn.
  rewrite forallb_forall in Hn.
  apply list_elem_of_In, Hn in Hin. discriminate.
Qed.

(** X19. Every request a constructed connection sends, by whichever
    endpoint method and from whatever state of the world, goes out on the
    session the constructor made, whose connector has the fingerprint
    chosen at construction. *)
Theorem requests_on_constructed_session id secret key0 kf fp vf
    (w0 w1 : World) (self : Connection) (w : World) :
  __init__ id secret key0 kf fp vf w0 = (Ok self, w1) ->
  let s := pinned_session (connector_fingerprint_of fp vf) in
  (forall i, only_on s (events_of (get_public_key self i) w))
  /\ (forall mode, only_on s (events_of (get_id self mode) w))
  /\ (forall i, only_on s (events_of (get_reception_capabilities self i) w))
  /\ only_on s (events_of (get_credits self) w)
  /\ (forall d, only_on s (events_of (send_simple self d) w))
  /\ (forall d, only_on s (events_of (send_e2e self d) w))
  /\ (forall blob, only_on s (events_of (upload self blob) w))
  /\ (forall i, only_on s (events_of (download self i) w)).
Proof.
  intros Hinit s.
  assert (_session self = s) as <-.
  { destruct (init_constructs id secret key0 kf fp vf w0) as [_ Hs].
    by rewrite Hinit in Hs. }
  repeat apply conj.
  - intros i. eapply only_on_endpoint;
      [apply get_public_key_endpoint|apply quiet_get_public_key_200].
  - intros mode.
    destruct (get_id_cases self mode w) as [[e He]|[url Hrun]].
    + intros s' r Hin. unfold events_of in Hin.
      rewrite He, drop_all in Hin. by apply elem_of_nil in Hin.
    + eapply only_on_endpoint; [exact Hrun|apply quiet_text].
  - intros i. eapply only_on_endpoint;
      [apply get_reception_capabilities_endpoint
      |apply quiet_get_reception_capabilities_200].
  - eapply only_on_endpoint;
      [apply get_credits_endpoint|apply quiet_get_credits_200].
  - intros d. eapply only_on_endpoint; [apply _send_endpoint|apply quiet_text].
  - intros d. eapply only_on_endpoint; [apply _send_endpoint|apply quiet_text].
  - intros blob. eapply only_on_endpoint;
      [apply _upload_endpoint|apply quiet_text].
  - intros i. eapply only_on_endpoint;
      [apply download_endpoint|intros; apply quiet_ret].
Qed.

End KeyMaterial.


(** ** These theorems at concrete inputs *)

Lemma get_id_request_witness :
  requests_of (get_id (H := demo_collaborators) demo_connection
                 {[ "email" := PyStr "a@b.ch" ]})
    (demo_world 200 "ECHOECHO")
  = [get_request demo_connection
       "https://msgapi.threema.ch/lookup/email/a@b.ch"].
Proof.
  apply (get_id_request (H := demo_collaborators) demo_connection "email"
           (PyStr "a@b.ch") (demo_world 200 "ECHOECHO")).
  apply elem_of_union_l, elem_of_union_r, elem_of_singleton. reflexivity.
Defined.

Lemma get_id_rejections_witness :
  get_id (H := demo_collaborators) demo_connection
    {[ "fax" := PyStr "1"; "phone" := PyStr "2" ]} (demo_world 200 "ECHOECHO")
  = (Raise (IDError "Unknown mode selected: {...}"), demo_world 200 "ECHOECHO").
Proof.
  apply (get_id_rejections (H := demo_collaborators) demo_connection
           {[ "fax" := PyStr "1"; "phone" := PyStr "2" ]}
           (demo_world 200 "ECHOECHO")).
  apply (bool_decide_unpack _). vm_compute. exact I.
Defined.

Lemma text_methods_witness :
  returns_text_read demo_connection
    (send_simple demo_connection
       {[ "to" := PyStr "ECHOECHO"; "text" := PyStr "hello" ]})
    (demo_world 200 "0123456789abcdef") "0123456789abcdef".
Proof.
  destruct (text_methods_return_body (H := demo_collaborators)
              demo_connection (demo_world 200 "0123456789abcdef")
              "0123456789abcdef") as (_ & Hsend & _).
  apply Hsend. eexists. split; reflexivity.
Defined.

Lemma download_witness :
  fst (download (H := demo_collaborators) demo_connection (PyStr "0f0f")
         (demo_world 200 "payload"))
  = Ok {| handle := 0; status := 200; body := "payload" |}
  /\ events_of (download (H := demo_collaborators) demo_connection
                  (PyStr "0f0f")) (demo_world 200 "payload")
     = [EvRequest (_session demo_connection)
          (get_request demo_connection
             "https://msgapi.threema.ch/blobs/0f0f")].
Proof.
  apply (download_returns_live_response (H := demo_collaborators)
           demo_connection (PyStr "0f0f") (demo_world 200 "payload") "payload").
  eexists. split; reflexivity.
Defined.

Lemma get_credits_witness :
  fst (get_credits (H := demo_collaborators) demo_connection
         (demo_world 200 "42"))
  = int (Collaborators := demo_collaborators) "42".
Proof.
  rewrite (get_credits_parses_body (H := demo_collaborators) demo_connection
             (demo_world 200 "42") "42"); [reflexivity|].
  eexists. split; reflexivity.
Defined.

Lemma get_public_key_witness :
  fst (get_public_key (H := demo_collaborators) demo_connection
         (PyStr "ECHOECHO") (demo_world 200 "4a6a"))
  = Ok (PyBytes []).
Proof.
  rewrite (get_public_key_decodes_body (H := demo_collaborators)
             demo_connection (PyStr "ECHOECHO") (demo_world 200 "4a6a")
             "4a6a"); [reflexivity|].
  eexists. split; reflexivity.
Defined.

Lemma transport_failure_witness :
  fails_unanswered demo_connection
    (upload demo_connection (PyBytes [x00])) demo_silent_world.
Proof.
  destruct (transport_failure_propagates (H := demo_collaborators)
              demo_connection demo_silent_world)
    as (_ & _ & _ & _ & _ & _ & Hupload & _).
  apply Hupload. eexists. split; reflexivity.
Defined.

Lemma capabilities_never_empty_witness :
  ({[ text_; image; file ]} : gset ReceptionCapability) <> ∅.
Proof.
  apply (capabilities_never_empty (H := demo_collaborators) demo_connection
           (PyStr "ECHOECHO") (demo_world 200 "text,image,file")).
  vm_compute. reflexivity.
Defined.

Lemma key_setter_keeps_rest_witness :
  key_file (with_key demo_connection (PyObject 4)) (demo_world 200 "")
  = (Ok None, demo_world 200 "").
Proof.
  apply (key_setter_keeps_rest (H := demo_collaborators) demo_connection
           (with_key demo_connection (PyObject 4)) (PyStr "abcd")
           (demo_world 200 "") (demo_world 200 "")).
  reflexivity.
Defined.

Lemma key_file_round_trip_witness :
  key_file
    (with_key_file (with_key demo_connection (PyObject 12))
       (Some "private.key"))
    (log (EvOpen "private.key") (demo_world 200 ""))
  = (Ok (Some "private.key"), log (EvOpen "private.key") (demo_world 200 "")).
Proof.
  apply (key_file_round_trip (H := demo_collaborators) demo_connection
           (with_key_file (with_key demo_connection (PyObject 12))
              (Some "private.key"))
           (Some "private.key") (demo_world 200 "")
           (log (EvOpen "private.key") (demo_world 200 ""))).
  reflexivity.
Defined.

Lemma key_file_first_line_witness :
  key_file_setter (H := demo_collaborators) demo_connection
    (Some "private.key") (demo_world 200 "")
  = (Ok (with_key_file (with_key demo_connection (PyObject 12))
           (Some "private.key")),
     log (EvOpen "private.key") (demo_world 200 "")).
Proof.
  apply (key_file_first_line_only (H := demo_collaborators) demo_connection
           "private.key" "  private:0123" "  private:0123
second line" (demo_world 200 "")).
  - reflexivity.
  - reflexivity.
  - right. exists (ascii_of_N 10), "second line". split; [by left|reflexivity].
Defined.

Lemma init_text_key_refused_witness :
  __init__ (H := demo_collaborators) (PyStr "*MYGATEW") (PyStr "hunter2")
    (PyStr "") (Some "private.key") None true (demo_world 200 "")
  = (Raise (GatewayKeyError "empty"),
     log (EvSession (pinned_session (Some fingerprint))) (demo_world 200 "")).
Proof.
  apply (init_text_key_refused (H := demo_collaborators)). reflexivity.
Defined.

Lemma init_key_file_missing_witness :
  __init__ (H := demo_collaborators) (PyStr "*MYGATEW") (PyStr "hunter2")
    PyNone (Some "missing.key") None false (demo_world 200 "")
  = (Raise (OSError "missing.key"),
     log (EvSession (pinned_session None)) (demo_world 200 "")).
Proof.
  apply (init_key_file_missing (H := demo_collaborators)); reflexivity.
Defined.



Lemma init_text_key_round_trip_witness :
  exists self w',
    __init__ (H := demo_collaborators) (PyStr "*MYGATEW") (PyStr "hunter2")
      (PyStr "abcd") None None false (demo_world 200 "")
    = (Ok self, w')
    /\ _key self = PyObject 4
    /\ key self w' = (Ok (PyObject 4), w').
Proof.
  apply (init_text_key_round_trip (H := demo_collaborators)); reflexivity.
Defined.

Lemma requests_on_constructed_session_witness :
  only_on (pinned_session (Some fingerprint))
    (events_of
       (get_credits (H := demo_collaborators)
          {| _session := pinned_session (Some fingerprint); _key := PyObject 7;
             _key_file := None; id := PyStr "*MYGATEW";
             secret := PyStr "hunter2" |})
       (demo_world 200 "42")).
Proof.
  destruct (requests_on_constructed_session (H := demo_collaborators)
              (PyStr "*MYGATEW") (PyStr "hunter2") (PyObject 7) None None true
              (demo_world 200 "")
              (log (EvSession (pinned_session (Some fingerprint)))
                 (demo_world 200 ""))
              {| _session := pinned_session (Some fingerprint);
                 _key := PyObject 7; _key_file := None;
                 id := PyStr "*MYGATEW"; secret := PyStr "hunter2" |}
              (demo_world 200 "42") eq_refl)
    as (_ & _ & _ & Hcredits & _).
  exact Hcredits.
Defined.
